(** * The mode-driven real-time vehicle simulator

    A shallow embedding of [RealTimeSimulator] from
    [backend/src/simulation/physics_engine.py], and the properties of its
    tick (event injection, kinematics, energy, thermal update, snapshot).

    Python floats are read as exact rationals ([Q]); [max] and [min] are
    [Qmax] and [Qmin], which pick the same argument as Python's built-ins
    do.  The global numpy generator is an explicit generator state threaded
    through the tick, and the two wall-clock reads of the loop are explicit
    inputs.

    Python's [/] raises on a zero divisor where [Qdiv] returns 0.  The
    divisors of the tick are the floored [3.6 * max(0.1, dt)], the speed
    once it is above 5, the positive constants of the mode table,
    [max(0.7, motor_efficiency)], [battery_capacity] and the average
    consumption; [update_energy_divisors] below shows that none of them is
    zero as long as [battery_capacity] is positive, which [__init__]
    establishes and no method changes. *)

From Stdlib Require Import QArith Qminmax Qabs Qround ZArith String List Bool Lia Lqa.
Import ListNotations.
Open Scope Q_scope.

(** ** Comparisons on floats *)

(** Python's [x < y]. *)
Definition Qltb (x y : Q) : bool := negb (Qle_bool y x).

(** ** The numpy generator

    [np.random.random], [np.random.normal], [np.random.uniform] and
    [np.random.choice] all draw from one global generator; each call
    advances it.  The generator is an interface here: a state type with the
    four draws and the ranges numpy documents for them. *)

Class NumpyRandom (G : Type) : Type := {
  np_random : G -> Q * G;
  np_normal : Q -> Q -> G -> Q * G;
  np_uniform : Q -> Q -> G -> Q * G;
  np_choice_index : nat -> G -> nat * G;
  np_random_range : forall g, 0 <= fst (np_random g) /\ fst (np_random g) < 1;
  np_uniform_range : forall lo hi g,
      lo <= hi -> lo <= fst (np_uniform lo hi g) /\ fst (np_uniform lo hi g) <= hi;
  np_choice_index_range : forall n g,
      (0 < n)%nat -> (fst (np_choice_index n g) < n)%nat
}.

(** ** Driving modes and their parameters *)

Inductive Mode : Type := MODE_URBAIN | MODE_SPORT | MODE_AUTOROUTE | MODE_ECO.

(** The dictionary keys of [MODE_PARAMS]. *)
Definition mode_key (m : Mode) : string :=
  match m with
  | MODE_URBAIN => "urbain"
  | MODE_SPORT => "sport"
  | MODE_AUTOROUTE => "autoroute"
  | MODE_ECO => "eco"
  end.

(** [key in self.MODE_PARAMS], returning the mode the key names. *)
Definition mode_of_key (key : string) : option Mode :=
  if String.eqb key "urbain" then Some MODE_URBAIN
  else if String.eqb key "sport" then Some MODE_SPORT
  else if String.eqb key "autoroute" then Some MODE_AUTOROUTE
  else if String.eqb key "eco" then Some MODE_ECO
  else None.

Record ModeParams : Type := {
  vitesse_max : Q;
  vitesse_moyenne : Q;
  acceleration_max : Q;
  variation_vitesse : Q;
  conso_base : Q;
  temps_factor : Q;
  regeneration : Q
}.

Definition MODE_PARAMS (m : Mode) : ModeParams :=
  match m with
  | MODE_URBAIN =>
      {| vitesse_max := 50; vitesse_moyenne := 30; acceleration_max := 2.0;
         variation_vitesse := 15; conso_base := 16; temps_factor := 1.0;
         regeneration := 0.4 |}
  | MODE_SPORT =>
      {| vitesse_max := 150; vitesse_moyenne := 90; acceleration_max := 4.0;
         variation_vitesse := 25; conso_base := 25; temps_factor := 1.5;
         regeneration := 0.2 |}
  | MODE_AUTOROUTE =>
      {| vitesse_max := 130; vitesse_moyenne := 110; acceleration_max := 1.5;
         variation_vitesse := 10; conso_base := 21; temps_factor := 1.2;
         regeneration := 0.1 |}
  | MODE_ECO =>
      {| vitesse_max := 90; vitesse_moyenne := 60; acceleration_max := 1.0;
         variation_vitesse := 5; conso_base := 13; temps_factor := 0.8;
         regeneration := 0.5 |}
  end.

(** The [mode_factor] table of [_calculate_energy_consumption]. *)
Definition mode_factor (m : Mode) : Q :=
  match m with
  | MODE_URBAIN => 1.0
  | MODE_SPORT => 1.5
  | MODE_AUTOROUTE => 1.1
  | MODE_ECO => 0.8
  end.

(** ** Vehicle data: the [vehicle_data] dictionary *)

Record VehicleData : Type := {
  speed : Q;
  acceleration : Q;
  temperature : Q;
  battery_level : Q;
  battery_capacity : Q;
  motor_load : Q;
  road_grade : Q;
  tire_pressure : Q;
  vehicle_weight : Q;
  wind_speed : Q;
  road_condition : Q;
  total_distance : Q;
  energy_consumption : Q;
  instant_consumption : Q;
  simulation_mode : Mode;
  autonomy_remaining : Q
}.

Definition set_speed (v : Q) (d : VehicleData) : VehicleData :=
  {| speed := v; acceleration := acceleration d; temperature := temperature d;
     battery_level := battery_level d; battery_capacity := battery_capacity d;
     motor_load := motor_load d; road_grade := road_grade d;
     tire_pressure := tire_pressure d; vehicle_weight := vehicle_weight d;
     wind_speed := wind_speed d; road_condition := road_condition d;
     total_distance := total_distance d;
     energy_consumption := energy_consumption d;
     instant_consumption := instant_consumption d;
     simulation_mode := simulation_mode d;
     autonomy_remaining := autonomy_remaining d |}.

Definition set_acceleration (v : Q) (d : VehicleData) : VehicleData :=
  {| speed := speed d; acceleration := v; temperature := temperature d;
     battery_level := battery_level d; battery_capacity := battery_capacity d;
     motor_load := motor_load d; road_grade := road_grade d;
     tire_pressure := tire_pressure d; vehicle_weight := vehicle_weight d;
     wind_speed := wind_speed d; road_condition := road_condition d;
     total_distance := total_distance d;
     energy_consumption := energy_consumption d;
     instant_consumption := instant_consumption d;
     simulation_mode := simulation_mode d;
     autonomy_remaining := autonomy_remaining d |}.

Definition set_temperature (v : Q) (d : VehicleData) : VehicleData :=
  {| speed := speed d; acceleration := acceleration d; temperature := v;
     battery_level := battery_level d; battery_capacity := battery_capacity d;
     motor_load := motor_load d; road_grade := road_grade d;
     tire_pressure := tire_pressure d; vehicle_weight := vehicle_weight d;
     wind_speed := wind_speed d; road_condition := road_condition d;
     total_distance := total_distance d;
     energy_consumption := energy_consumption d;
     instant_consumption := instant_consumption d;
     simulation_mode := simulation_mode d;
     autonomy_remaining := autonomy_remaining d |}.

Definition set_battery_level (v : Q) (d : VehicleData) : VehicleData :=
  {| speed := speed d; acceleration := acceleration d;
     temperature := temperature d;
     battery_level := v; battery_capacity := battery_capacity d;
     motor_load := motor_load d; road_grade := road_grade d;
     tire_pressure := tire_pressure d; vehicle_weight := vehicle_weight d;
     wind_speed := wind_speed d; road_condition := road_condition d;
     total_distance := total_distance d;
     energy_consumption := energy_consumption d;
     instant_consumption := instant_consumption d;
     simulation_mode := simulation_mode d;
     autonomy_remaining := autonomy_remaining d |}.

Definition set_motor_load (v : Q) (d : VehicleData) : VehicleData :=
  {| speed := speed d; acceleration := acceleration d;
     temperature := temperature d;
     battery_level := battery_level d; battery_capacity := battery_capacity d;
     motor_load := v; road_grade := road_grade d;
     tire_pressure := tire_pressure d; vehicle_weight := vehicle_weight d;
     wind_speed := wind_speed d; road_condition := road_condition d;
     total_distance := total_distance d;
     energy_consumption := energy_consumption d;
     instant_consumption := instant_consumption d;
     simulation_mode := simulation_mode d;
     autonomy_remaining := autonomy_remaining d |}.

Definition set_road_grade (v : Q) (d : VehicleData) : VehicleData :=
  {| speed := speed d; acceleration := acceleration d;
     temperature := temperature d;
     battery_level := battery_level d; battery_capacity := battery_capacity d;
     motor_load := motor_load d; road_grade := v;
     tire_pressure := tire_pressure d; vehicle_weight := vehicle_weight d;
     wind_speed := wind_speed d; road_condition := road_condition d;
     total_distance := total_distance d;
     energy_consumption := energy_consumption d;
     instant_consumption := instant_consumption d;
     simulation_mode := simulation_mode d;
     autonomy_remaining := autonomy_remaining d |}.

Definition set_tire_pressure (v : Q) (d : VehicleData) : VehicleData :=
  {| speed := speed d; acceleration := acceleration d;
     temperature := temperature d;
     battery_level := battery_level d; battery_capacity := battery_capacity d;
     motor_load := motor_load d; road_grade := road_grade d;
     tire_pressure := v; vehicle_weight := vehicle_weight d;
     wind_speed := wind_speed d; road_condition := road_condition d;
     total_distance := total_distance d;
     energy_consumption := energy_consumption d;
     instant_consumption := instant_consumption d;
     simulation_mode := simulation_mode d;
     autonomy_remaining := autonomy_remaining d |}.

Definition set_wind_speed (v : Q) (d : VehicleData) : VehicleData :=
  {| speed := speed d; acceleration := acceleration d;
     temperature := temperature d;
     battery_level := battery_level d; battery_capacity := battery_capacity d;
     motor_load := motor_load d; road_grade := road_grade d;
     tire_pressure := tire_pressure d; vehicle_weight := vehicle_weight d;
     wind_speed := v; road_condition := road_condition d;
     total_distance := total_distance d;
     energy_consumption := energy_consumption d;
     instant_consumption := instant_consumption d;
     simulation_mode := simulation_mode d;
     autonomy_remaining := autonomy_remaining d |}.

Definition set_road_condition (v : Q) (d : VehicleData) : VehicleData :=
  {| speed := speed d; acceleration := acceleration d;
     temperature := temperature d;
     battery_level := battery_level d; battery_capacity := battery_capacity d;
     motor_load := motor_load d; road_grade := road_grade d;
     tire_pressure := tire_pressure d; vehicle_weight := vehicle_weight d;
     wind_speed := wind_speed d; road_condition := v;
     total_distance := total_distance d;
     energy_consumption := energy_consumption d;
     instant_consumption := instant_consumption d;
     simulation_mode := simulation_mode d;
     autonomy_remaining := autonomy_remaining d |}.

Definition set_total_distance (v : Q) (d : VehicleData) : VehicleData :=
  {| speed := speed d; acceleration := acceleration d;
     temperature := temperature d;
     battery_level := battery_level d; battery_capacity := battery_capacity d;
     motor_load := motor_load d; road_grade := road_grade d;
     tire_pressure := tire_pressure d; vehicle_weight := vehicle_weight d;
     wind_speed := wind_speed d; road_condition := road_condition d;
     total_distance := v;
     energy_consumption := energy_consumption d;
     instant_consumption := instant_consumption d;
     simulation_mode := simulation_mode d;
     autonomy_remaining := autonomy_remaining d |}.

Definition set_energy_consumption (v : Q) (d : VehicleData) : VehicleData :=
  {| speed := speed d; acceleration := acceleration d;
     temperature := temperature d;
     battery_level := battery_level d; battery_capacity := battery_capacity d;
     motor_load := motor_load d; road_grade := road_grade d;
     tire_pressure := tire_pressure d; vehicle_weight := vehicle_weight d;
     wind_speed := wind_speed d; road_condition := road_condition d;
     total_distance := total_distance d;
     energy_consumption := v;
     instant_consumption := instant_consumption d;
     simulation_mode := simulation_mode d;
     autonomy_remaining := autonomy_remaining d |}.

Definition set_instant_consumption (v : Q) (d : VehicleData) : VehicleData :=
  {| speed := speed d; acceleration := acceleration d;
     temperature := temperature d;
     battery_level := battery_level d; battery_capacity := battery_capacity d;
     motor_load := motor_load d; road_grade := road_grade d;
     tire_pressure := tire_pressure d; vehicle_weight := vehicle_weight d;
     wind_speed := wind_speed d; road_condition := road_condition d;
     total_distance := total_distance d;
     energy_consumption := energy_consumption d;
     instant_consumption := v;
     simulation_mode := simulation_mode d;
     autonomy_remaining := autonomy_remaining d |}.

Definition set_simulation_mode (v : Mode) (d : VehicleData) : VehicleData :=
  {| speed := speed d; acceleration := acceleration d;
     temperature := temperature d;
     battery_level := battery_level d; battery_capacity := battery_capacity d;
     motor_load := motor_load d; road_grade := road_grade d;
     tire_pressure := tire_pressure d; vehicle_weight := vehicle_weight d;
     wind_speed := wind_speed d; road_condition := road_condition d;
     total_distance := total_distance d;
     energy_consumption := energy_consumption d;
     instant_consumption := instant_consumption d;
     simulation_mode := v;
     autonomy_remaining := autonomy_remaining d |}.

Definition set_autonomy_remaining (v : Q) (d : VehicleData) : VehicleData :=
  {| speed := speed d; acceleration := acceleration d;
     temperature := temperature d;
     battery_level := battery_level d; battery_capacity := battery_capacity d;
     motor_load := motor_load d; road_grade := road_grade d;
     tire_pressure := tire_pressure d; vehicle_weight := vehicle_weight d;
     wind_speed := wind_speed d; road_condition := road_condition d;
     total_distance := total_distance d;
     energy_consumption := energy_consumption d;
     instant_consumption := instant_consumption d;
     simulation_mode := simulation_mode d;
     autonomy_remaining := v |}.

(** ** Events *)

Inductive EventName : Type :=
| trafic_dense | route_degagee | pluie | vent_lateral | montee
| feu_rouge | peage.

Record Event : Type := {
  name : EventName;
  duration : Z;
  description : string
}.

(** ** The simulator object

    [data_update_callbacks] and [simulation_thread] are left out: the
    callbacks only receive the snapshot, which [_simulation_loop] returns
    here. *)

Record Simulator : Type := {
  is_running : bool;
  vehicle_data : VehicleData;
  update_interval : Q;
  current_mode : Mode;
  event_probability : Q;
  current_event : option Event;
  event_duration : Z
}.

Definition set_is_running (v : bool) (s : Simulator) : Simulator :=
  {| is_running := v; vehicle_data := vehicle_data s;
     update_interval := update_interval s; current_mode := current_mode s;
     event_probability := event_probability s;
     current_event := current_event s; event_duration := event_duration s |}.

Definition set_vehicle_data (v : VehicleData) (s : Simulator) : Simulator :=
  {| is_running := is_running s; vehicle_data := v;
     update_interval := update_interval s; current_mode := current_mode s;
     event_probability := event_probability s;
     current_event := current_event s; event_duration := event_duration s |}.

Definition set_current_mode (v : Mode) (s : Simulator) : Simulator :=
  {| is_running := is_running s; vehicle_data := vehicle_data s;
     update_interval := update_interval s; current_mode := v;
     event_probability := event_probability s;
     current_event := current_event s; event_duration := event_duration s |}.

Definition set_current_event (v : option Event) (s : Simulator) : Simulator :=
  {| is_running := is_running s; vehicle_data := vehicle_data s;
     update_interval := update_interval s; current_mode := current_mode s;
     event_probability := event_probability s;
     current_event := v; event_duration := event_duration s |}.

Definition set_event_duration (v : Z) (s : Simulator) : Simulator :=
  {| is_running := is_running s; vehicle_data := vehicle_data s;
     update_interval := update_interval s; current_mode := current_mode s;
     event_probability := event_probability s;
     current_event := current_event s; event_duration := v |}.

(** [self.vehicle_data[k] = ...] on the simulator. *)
Definition on_data (f : VehicleData -> VehicleData) (s : Simulator) : Simulator :=
  set_vehicle_data (f (vehicle_data s)) s.

(** [RealTimeSimulator.__init__]. *)
Definition init : Simulator :=
  {| is_running := false;
     vehicle_data :=
       {| speed := 0; acceleration := 0; temperature := 25;
          battery_level := 100; battery_capacity := 60; motor_load := 0;
          road_grade := 0; tire_pressure := 2.4; vehicle_weight := 1800;
          wind_speed := 0; road_condition := 0; total_distance := 0;
          energy_consumption := 0; instant_consumption := 0;
          simulation_mode := MODE_URBAIN; autonomy_remaining := 390 |};
     update_interval := 0.2;
     current_mode := MODE_URBAIN;
     event_probability := 0.01;
     current_event := None;
     event_duration := 0 |}.

(** A snapshot: [get_current_data]'s copy of the dictionary with the
    ['timestamp'] entry added. *)
Record Snapshot : Type := {
  data : VehicleData;
  timestamp : string
}.

(** ** Lifecycle commands *)

(** [start(mode)]: the optional argument is [None] when omitted. *)
Definition start (mode : option string) (s : Simulator) : Simulator :=
  let s :=
    match mode with
    | Some key =>
        match mode_of_key key with
        | Some m => on_data (set_simulation_mode m) (set_current_mode m s)
        | None => s
        end
    | None => s
    end in
  if is_running s then s else set_is_running true s.

(** [stop()]. *)
Definition stop (s : Simulator) : Simulator := set_is_running false s.

(** [change_mode(new_mode)], with its boolean result. *)
Definition change_mode (new_mode : string) (s : Simulator) : Simulator * bool :=
  match mode_of_key new_mode with
  | Some m => (on_data (set_simulation_mode m) (set_current_mode m s), true)
  | None => (s, false)
  end.

(** ** The tick, over an arbitrary generator *)

Section Engine.

Context {G : Type} {rng : NumpyRandom G}.

(** [math.sin(math.atan(x))], the one transcendental expression of the
    tick.  Its value is not rational in general, so it stays a parameter;
    no property below depends on it. *)
Variable sin_atan : Q -> Q.

(** Computations that draw from the generator. *)
Definition Rand (A : Type) : Type := G -> A * G.

Definition ret {A : Type} (a : A) : Rand A := fun g => (a, g).

Definition bind {A B : Type} (m : Rand A) (k : A -> Rand B) : Rand B :=
  fun g => let (a, g') := m g in k a g'.

Notation "x <- m ;; k" := (bind m (fun x => k))
  (at level 61, m at next level, right associativity).

(** [np.random.choice(events)]: one element of a non-empty list. *)
Definition np_choice (events : list Event) (dflt : Event) : Rand Event :=
  i <- np_choice_index (length events) ;;
  ret (nth i events dflt).

(** *** [_handle_random_events] *)

Definition base_events : list Event :=
  [ {| name := trafic_dense; duration := 50; description := "Trafic dense" |};
    {| name := route_degagee; duration := 40; description := "Route dégagée" |};
    {| name := pluie; duration := 60; description := "Pluie modérée" |};
    {| name := vent_lateral; duration := 30; description := "Vent latéral fort" |};
    {| name := montee; duration := 25; description := "Montée importante" |} ].

(** The candidate list after the mode-specific [append]s. *)
Definition events_for (m : Mode) : list Event :=
  match m with
  | MODE_URBAIN =>
      base_events ++
      [ {| name := trafic_dense; duration := 50; description := "Trafic dense" |};
        {| name := feu_rouge; duration := 15; description := "Feu rouge" |} ]
  | MODE_AUTOROUTE =>
      base_events ++
      [ {| name := peage; duration := 10; description := "Passage de péage" |};
        {| name := route_degagee; duration := 70; description := "Route dégagée" |} ]
  | _ => base_events
  end.

(** [not self.current_event and np.random.random() < self.event_probability]:
    the [and] short-circuits, so nothing is drawn while an event is active. *)
Definition _handle_random_events (s : Simulator) : Rand Simulator :=
  match current_event s with
  | Some _ => ret s
  | None =>
      u <- np_random ;;
      if Qltb u (event_probability s) then
        ev <- np_choice (events_for (current_mode s))
                        {| name := trafic_dense; duration := 50;
                           description := "Trafic dense" |} ;;
        ret (set_event_duration (duration ev) (set_current_event (Some ev) s))
      else ret s
  end.

(** *** [_apply_event_effects] *)

(** The per-tick effect of the event named [event]. *)
Definition event_effect (event : EventName) (s : Simulator) : Rand Simulator :=
  match event with
  | trafic_dense =>
      ret (on_data (fun d => set_speed (Qmax 0 (speed d * 0.95)) d) s)
  | route_degagee =>
      let mode_params := MODE_PARAMS (current_mode s) in
      let max_speed := vitesse_max mode_params in
      ret (on_data (fun d => set_speed (Qmin max_speed (speed d * 1.05)) d) s)
  | pluie =>
      ret (on_data (fun d =>
             let d := set_road_condition 1.0 d in
             set_energy_consumption (energy_consumption d * 1.1) d) s)
  | vent_lateral =>
      w <- np_uniform 8 15 ;;
      ret (on_data (set_wind_speed w) s)
  | montee =>
      r <- np_uniform 3 8 ;;
      ret (on_data (set_road_grade r) s)
  | feu_rouge =>
      ret (on_data (fun d => set_speed (Qmax 0 (speed d - 5)) d) s)
  | peage =>
      ret (on_data (fun d => set_speed (Qmax 0 (speed d - 10)) d) s)
  end.

(** The reset done when the event named [event] ends. *)
Definition event_reset (event : EventName) (s : Simulator) : Rand Simulator :=
  match event with
  | pluie => ret (on_data (set_road_condition 0) s)
  | vent_lateral =>
      w <- np_uniform (-2) 2 ;;
      ret (on_data (set_wind_speed w) s)
  | montee =>
      r <- np_uniform (-2) 2 ;;
      ret (on_data (set_road_grade r) s)
  | _ => ret s
  end.

(** Only called with an event active ([if self.current_event:] guards the
    call); without one the subscript on [None] would raise. *)
Definition _apply_event_effects (s : Simulator) : Rand Simulator :=
  match current_event s with
  | None => ret s
  | Some ev =>
      let event := name ev in
      s <- event_effect event s ;;
      let s := set_event_duration (event_duration s - 1) s in
      if (event_duration s <=? 0)%Z then
        s <- event_reset event s ;;
        ret (set_current_event None s)
      else ret s
  end.

(** *** [_update_vehicle_state], block by block *)

(** Lines "Tendance vers la vitesse moyenne avec hysteresis": the pull of
    the speed toward the mode's average speed. *)
Definition tendance_vitesse (mode_params : ModeParams) (d : VehicleData) : Q :=
  let vitesse_moyenne := vitesse_moyenne mode_params in
  let acceleration_max := acceleration_max mode_params in
  if Qltb (speed d) (vitesse_moyenne - 5) then
    Qmin (acceleration_max * 0.5) ((vitesse_moyenne - speed d) * 0.1)
  else if Qltb (vitesse_moyenne + 5) (speed d) then
    Qmax (- acceleration_max * 0.3) ((vitesse_moyenne - speed d) * 0.1)
  else (vitesse_moyenne - speed d) * 0.05.

(** [speed_change]: tendency, road and wind effects scaled by the time
    factor, plus the [np.random.normal(0, variation_vitesse/10)] draw
    [noise]. *)
Definition speed_change (mode_params : ModeParams) (noise : Q)
    (d : VehicleData) : Q :=
  let time_factor := temps_factor mode_params in
  let road_effect := - road_grade d * 0.2 in
  let wind_effect := - wind_speed d * 0.05 in
  (tendance_vitesse mode_params d + road_effect + wind_effect) * time_factor
  + noise.

(** Lines "Limitation de l'acceleration selon le mode" to "Mise a jour de
    la distance parcourue": acceleration, speed and distance. *)
Definition update_kinematics (mode_params : ModeParams) (elapsed_time noise : Q)
    (d : VehicleData) : VehicleData :=
  let vitesse_max := vitesse_max mode_params in
  let acceleration_max := acceleration_max mode_params in
  let time_factor := temps_factor mode_params in
  let speed_change := speed_change mode_params noise d in
  let d := set_acceleration
             (Qmin acceleration_max
                (Qmax (- acceleration_max)
                   (speed_change / (3.6 * Qmax 0.1 elapsed_time)))) d in
  let new_speed := speed d + acceleration d * 3.6 * elapsed_time in
  let d := set_speed (Qmax 0 (Qmin vitesse_max new_speed)) d in
  let distance_km := (speed d * elapsed_time * time_factor) / 3600 in
  set_total_distance (total_distance d + distance_km * 1000) d.

(** Lines "Calcul de la consommation instantanee" to the autonomy
    estimate: power, consumption per 100 km, battery and autonomy. *)
Definition update_energy (mode_params : ModeParams) (elapsed_time : Q)
    (d : VehicleData) : VehicleData :=
  let vitesse_moyenne := vitesse_moyenne mode_params in
  let regeneration := regeneration mode_params in
  let aero_resistance := 0.5 * 1.225 * 0.30 * 2.5 * (speed d / 3.6) ^ 2 in
  let rolling_resistance := 0.013 * vehicle_weight d * 9.81 in
  let grade_resistance :=
    vehicle_weight d * 9.81 * sin_atan (road_grade d / 100) in
  let road_power :=
    (aero_resistance + rolling_resistance + grade_resistance) * (speed d / 3.6) in
  let accel_power :=
    Qmax 0 (vehicle_weight d * acceleration d * (speed d / 3.6)) in
  let motor_efficiency := 0.9 - 0.1 * (temperature d - 25) / 60 in
  let total_power :=
    (road_power + accel_power) / 1000 / Qmax 0.7 motor_efficiency in
  let total_power :=
    if Qltb (acceleration d) (-0.2) then
      let regen_power :=
        Qmin 0 (vehicle_weight d * acceleration d * (speed d / 3.6)
                * regeneration / 1000) in
      total_power + regen_power
    else total_power in
  let idle_power := if Qltb (temperature d) 15 then 0.8 else 0.5 in
  let d := set_instant_consumption (Qmax 0 (total_power + idle_power)) d in
  let d :=
    if Qltb 5 (speed d) then
      set_energy_consumption (instant_consumption d / speed d * 100) d
    else set_energy_consumption (conso_base mode_params) d in
  let energy_used := (instant_consumption d * elapsed_time) / 3600 in
  let battery_percentage_used := (energy_used / battery_capacity d) * 100 in
  let d := set_battery_level
             (Qmax 0 (battery_level d - battery_percentage_used)) d in
  let avg_consumption :=
    conso_base mode_params * (1 + 0.1 * (speed d / vitesse_moyenne - 1)) in
  let remaining_energy := (battery_level d / 100) * battery_capacity d in
  set_autonomy_remaining ((remaining_energy / avg_consumption) * 100) d.

(** Lines "Temperature du moteur" to the motor load. *)
Definition update_thermal (mode_params : ModeParams) (d : VehicleData)
    : VehicleData :=
  let vitesse_max := vitesse_max mode_params in
  let acceleration_max := acceleration_max mode_params in
  let time_factor := temps_factor mode_params in
  let temp_ambient := 20 in
  let temp_target := temp_ambient + (motor_load d / 100) * 60 in
  let temp_delta := (temp_target - temperature d) * 0.1 * time_factor in
  let d := set_temperature
             (Qmax temp_ambient (Qmin 90 (temperature d + temp_delta))) d in
  let base_load := 20 in
  let speed_load := 40 * (speed d / vitesse_max) in
  let accel_load := 40 * Qabs (acceleration d / acceleration_max) in
  set_motor_load (Qmin 100 (Qmax 0 (base_load + speed_load + accel_load))) d.

(** Lines "Variation de pression des pneus". *)
Definition update_tire_pressure (mode_params : ModeParams) (elapsed_time : Q)
    (d : VehicleData) : Rand VehicleData :=
  let time_factor := temps_factor mode_params in
  u <- np_random ;;
  if Qltb u (0.005 * time_factor) then
    let pressure_loss := 0.001 * elapsed_time in
    v <- np_random ;;
    pressure_loss <-
      (if Qltb v 0.1 then
         extra <- np_uniform 0 0.05 ;; ret (pressure_loss + extra)
       else ret pressure_loss) ;;
    ret (set_tire_pressure (Qmax 1.5 (tire_pressure d - pressure_loss)) d)
  else ret d.

Definition _update_vehicle_state (elapsed_time : Q) (s : Simulator)
    : Rand Simulator :=
  let mode_params := MODE_PARAMS (current_mode s) in
  s <- _handle_random_events s ;;
  s <- (match current_event s with
        | Some _ => _apply_event_effects s
        | None => ret s
        end) ;;
  noise <- np_normal 0 (variation_vitesse mode_params / 10) ;;
  let d := update_kinematics mode_params elapsed_time noise (vehicle_data s) in
  let d := update_energy mode_params elapsed_time d in
  let d := update_thermal mode_params d in
  d <- update_tire_pressure mode_params elapsed_time d ;;
  ret (set_vehicle_data d s).

(** *** [_calculate_energy_consumption] *)

Definition _calculate_energy_consumption (s : Simulator) : Simulator :=
  let d := vehicle_data s in
  let mode_params := MODE_PARAMS (current_mode s) in
  let base_consumption := conso_base mode_params in
  let speed_factor := 0.01 * speed d ^ 2 in
  let accel_factor := 2 * Qabs (acceleration d) in
  let temp_factor := 0.1 * Qabs (temperature d - 20) in
  let battery_factor := 0.05 * (100 - battery_level d) in
  let motor_factor := 0.02 * motor_load d in
  let grade_factor := 0.5 * Qabs (road_grade d) in
  let wind_factor := 0.2 * Qabs (wind_speed d) in
  let road_factor := 1 * road_condition d in
  on_data (set_energy_consumption
             (base_consumption * mode_factor (current_mode s) +
              speed_factor + accel_factor + temp_factor + battery_factor +
              motor_factor + grade_factor + wind_factor + road_factor)) s.

(** *** [get_current_data] and the loop *)

(** [now] is the string [datetime.now().isoformat()] returns. *)
Definition get_current_data (now : string) (s : Simulator) : Snapshot :=
  {| data := vehicle_data s; timestamp := now |}.

(** One iteration of the [while] loop: update, recompute the consumption,
    notify.  [elapsed] is [current_time - last_update]; the result carries
    the snapshot handed to the callbacks. *)
Definition loop_iteration (elapsed : Q) (now : string) (s : Simulator)
    : Rand (Simulator * Snapshot) :=
  s <- _update_vehicle_state elapsed s ;;
  let s := _calculate_energy_consumption s in
  ret (s, get_current_data now s).

(** [_simulation_loop].  [last_update] is the [time.time()] read before the
    loop; [clock] lists, for each iteration that runs before [is_running]
    is cleared, the [time.time()] read at its top and the
    [datetime.now().isoformat()] read when the snapshot is taken. *)
Fixpoint _simulation_loop (last_update : Q) (clock : list (Q * string))
    (s : Simulator) : Rand (Simulator * list Snapshot) :=
  match clock with
  | [] => ret (s, [])
  | (current_time, now) :: clock' =>
      let elapsed := current_time - last_update in
      r <- loop_iteration elapsed now s ;;
      r' <- _simulation_loop current_time clock' (fst r) ;;
      ret (fst r', snd r :: snd r')
  end.

(** The elapsed times the loop passes to [_update_vehicle_state]. *)
Fixpoint elapsed_times (last_update : Q) (clock : list (Q * string)) : list Q :=
  match clock with
  | [] => []
  | (current_time, _) :: clock' =>
      (current_time - last_update) :: elapsed_times current_time clock'
  end.

(** *** The tick in stages, for the statements below *)

(** The first two steps of [_update_vehicle_state]: draw an event if none
    is active, then apply the active one. *)
Definition events_stage (s : Simulator) : G -> Simulator * G :=
  bind (_handle_random_events s)
       (fun s1 => match current_event s1 with
                  | Some _ => _apply_event_effects s1
                  | None => ret s1
                  end).

(** The noise drawn in the tick that starts in [s] with generator [g]. *)
Definition tick_noise (s : Simulator) (g : G) : Q :=
  fst (np_normal 0 (variation_vitesse (MODE_PARAMS (current_mode s)) / 10)
         (snd (events_stage s g))).

(** The data after the three physics blocks of that tick. *)
Definition tick_physics (dt : Q) (s : Simulator) (g : G) : VehicleData :=
  let mp := MODE_PARAMS (current_mode s) in
  update_thermal mp
    (update_energy mp dt
       (update_kinematics mp dt (tick_noise s g)
          (vehicle_data (fst (events_stage s g))))).

End Engine.

(** ** Relations between the data before and after a tick *)

(** The fields of the simulator and of its data that no event step writes:
    the mode, and the battery, distance, temperature and constants. *)
Definition events_frame (s s' : Simulator) : Prop :=
  current_mode s' = current_mode s /\
  event_probability s' = event_probability s /\
  is_running s' = is_running s /\
  battery_level (vehicle_data s') = battery_level (vehicle_data s) /\
  battery_capacity (vehicle_data s') = battery_capacity (vehicle_data s) /\
  total_distance (vehicle_data s') = total_distance (vehicle_data s) /\
  temperature (vehicle_data s') = temperature (vehicle_data s) /\
  motor_load (vehicle_data s') = motor_load (vehicle_data s).

(** The fields of the data that neither the tire block nor
    [_calculate_energy_consumption] writes. *)
Definition tick_frame (d d' : VehicleData) : Prop :=
  speed d' = speed d /\ acceleration d' = acceleration d /\
  temperature d' = temperature d /\ battery_level d' = battery_level d /\
  battery_capacity d' = battery_capacity d /\
  motor_load d' = motor_load d /\ road_grade d' = road_grade d /\
  wind_speed d' = wind_speed d /\ road_condition d' = road_condition d /\
  total_distance d' = total_distance d.

(** What one tick keeps of the distance and battery invariants. *)
Definition battery_ok (d : VehicleData) : Prop :=
  0 <= battery_level d /\ battery_level d <= 100 /\ 0 < battery_capacity d.

Definition tick_monotone (d d' : VehicleData) : Prop :=
  total_distance d <= total_distance d' /\
  battery_level d' <= battery_level d /\
  0 <= battery_level d' /\ battery_level d' <= 100.

(** Every snapshot of the list is related to its predecessor, starting
    from the data [d], by [tick_monotone]. *)
Fixpoint monotone_from (d : VehicleData) (l : list Snapshot) : Prop :=
  match l with
  | [] => True
  | sn :: l' => tick_monotone d (data sn) /\ monotone_from (data sn) l'
  end.


(** ** A replay generator

    A generator that replays a recorded list of raw samples, one per draw
    (0 once the list is exhausted).  It is the instance the concrete
    scenarios below run on. *)

Definition Replay : Type := list Q.

(** The fractional part, in [[0, 1)]. *)
Definition frac (x : Q) : Q := x - inject_Z (Qfloor x).

Definition replay_next (g : Replay) : Q * Replay :=
  match g with
  | [] => (0, [])
  | x :: g' => (x, g')
  end.

Definition replay_random (g : Replay) : Q * Replay :=
  let (x, g') := replay_next g in (frac x, g').

Definition replay_normal (mu sigma : Q) (g : Replay) : Q * Replay :=
  let (x, g') := replay_next g in (mu + sigma * x, g').

Definition replay_uniform (lo hi : Q) (g : Replay) : Q * Replay :=
  let (x, g') := replay_next g in (lo + (hi - lo) * frac x, g').

Definition replay_choice_index (n : nat) (g : Replay) : nat * Replay :=
  let (x, g') := replay_next g in
  (Z.to_nat (Qfloor (frac x * inject_Z (Z.of_nat n))), g').

Lemma frac_range (x : Q) : 0 <= frac x /\ frac x < 1.
Proof.
  unfold frac.
  pose proof (Qfloor_le x) as Hlo.
  pose proof (Qlt_floor x) as Hhi.
  rewrite inject_Z_plus in Hhi.
  change (inject_Z 1) with 1 in Hhi.
  split; lra.
Qed.

Lemma replay_random_range (g : Replay) :
  0 <= fst (replay_random g) /\ fst (replay_random g) < 1.
Proof.
  unfold replay_random. destruct (replay_next g) as [x g']. cbn [fst].
  apply frac_range.
Qed.

Lemma replay_uniform_range (lo hi : Q) (g : Replay) :
  lo <= hi ->
  lo <= fst (replay_uniform lo hi g) /\ fst (replay_uniform lo hi g) <= hi.
Proof.
  intros Hle. unfold replay_uniform.
  destruct (replay_next g) as [x g']. cbn [fst].
  destruct (frac_range x) as [H0 H1].
  split; nra.
Qed.

Lemma replay_choice_index_range (n : nat) (g : Replay) :
  (0 < n)%nat -> (fst (replay_choice_index n g) < n)%nat.
Proof.
  intros Hn. unfold replay_choice_index.
  destruct (replay_next g) as [x g']. cbn [fst].
  destruct (frac_range x) as [H0 H1].
  set (y := frac x * inject_Z (Z.of_nat n)).
  assert (Hy : y < inject_Z (Z.of_nat n)).
  { assert (0 < inject_Z (Z.of_nat n)).
    { change 0 with (inject_Z 0). rewrite <- Zlt_Qlt. lia. }
    unfold y. nra. }
  assert (Hz : (Qfloor y < Z.of_nat n)%Z).
  { rewrite Zlt_Qlt. eapply Qle_lt_trans; [apply Qfloor_le | exact Hy]. }
  lia.
Qed.

#[export] Instance replay_rng : NumpyRandom Replay :=
  {| np_random := replay_random;
     np_normal := replay_normal;
     np_uniform := replay_uniform;
     np_choice_index := replay_choice_index;
     np_random_range := replay_random_range;
     np_uniform_range := replay_uniform_range;
     np_choice_index_range := replay_choice_index_range |}.

(** In the concrete scenarios [road_grade] is 0, and sin(atan(0)) = 0. *)
Definition sin_atan_flat (x : Q) : Q := 0.

(** ** Concrete scenarios

    The scenarios run on the replay generator, with a flat road
    ([road_grade] 0 throughout). *)

(** A simulator switched to sport mode. *)
Definition sport_simulator : Simulator := fst (change_mode "sport" init).

(** A simulator with [ev] active and [n] ticks left on its counter. *)
Definition with_event (ev : Event) (n : Z) (s : Simulator) : Simulator :=
  set_event_duration n (set_current_event (Some ev) s).

Definition pluie_event : Event :=
  {| name := pluie; duration := 60; description := "Pluie modérée" |}.

Definition feu_rouge_event : Event :=
  {| name := feu_rouge; duration := 15; description := "Feu rouge" |}.

Definition peage_event : Event :=
  {| name := peage; duration := 10; description := "Passage de péage" |}.

(** A simulator rolling at 50 km/h. *)
Definition at_50 : Simulator := on_data (set_speed 50) init.

(** Raw samples for one quiet tick: no event (0.5 is not below 0.01), no
    noise, no tire change (0.5 is not below 0.005). *)
Definition quiet_tick : Replay := [0.5; 0; 0.5].

(** One tick on the replay generator. *)
Definition replay_iteration (dt : Q) (now : string) (s : Simulator)
    (g : Replay) : Simulator * Snapshot * Replay :=
  loop_iteration sin_atan_flat dt now s g.

(** A run of the loop on the replay generator. *)
Definition replay_loop (last_update : Q) (clock : list (Q * string))
    (s : Simulator) (g : Replay) : Simulator * list Snapshot * Replay :=
  _simulation_loop sin_atan_flat last_update clock s g.

(** The clock of a run of three ticks, 0.2 s apart. *)
Definition clock_morning : list (Q * string) :=
  [ (1000.2, "2026-01-01T08:00:00.200000"%string);
    (1000.4, "2026-01-01T08:00:00.400000"%string);
    (1000.6, "2026-01-01T08:00:00.600000"%string) ].

(** Raw samples for three quiet ticks. *)
Definition quiet_run : Replay :=
  (quiet_tick ++ quiet_tick ++ quiet_tick)%list.

(** Rain with one tick left. *)
Definition rain_ending : Simulator := with_event pluie_event 1 init.

(** Raw samples for a tick with an event active: no event draw, so noise
    and the tire trial only. *)
Definition active_tick : Replay := [0; 0.5].


(** ** The rest of the engine file

    Definitions for the parts of [physics_engine.py] beyond the tick
    proper: predicates on the remaining fields of the data and on the event
    slot, the states the public operations reach, the subscriber list and
    the pedal-driven [VehiclePhysicsSimulation]. *)

(** The fields of the data, beyond [tick_frame], that neither the tire
    block nor [_calculate_energy_consumption] writes. *)
Definition tick_frame_more (d d' : VehicleData) : Prop :=
  instant_consumption d' = instant_consumption d /\
  autonomy_remaining d' = autonomy_remaining d /\
  simulation_mode d' = simulation_mode d /\
  vehicle_weight d' = vehicle_weight d.

(** A view of the data that ignores the five fields events write. *)
Definition event_blind {A : Type} (f : VehicleData -> A) : Prop :=
  (forall v d, f (set_speed v d) = f d) /\
  (forall v d, f (set_road_condition v d) = f d) /\
  (forall v d, f (set_energy_consumption v d) = f d) /\
  (forall v d, f (set_wind_speed v d) = f d) /\
  (forall v d, f (set_road_grade v d) = f d).

(** No perturbation: dry road, wind and grade at their baseline draw. *)
Definition calm (d : VehicleData) : Prop :=
  road_condition d = 0 /\
  (-2 <= wind_speed d /\ wind_speed d <= 2) /\
  (-2 <= road_grade d /\ road_grade d <= 2).

(** The environment while the event named [e] is active. *)
Definition environment_under (e : EventName) (d : VehicleData) : Prop :=
  match e with
  | pluie =>
      road_condition d = 1.0 /\
      (-2 <= wind_speed d /\ wind_speed d <= 2) /\
      (-2 <= road_grade d /\ road_grade d <= 2)
  | vent_lateral =>
      road_condition d = 0 /\
      (8 <= wind_speed d /\ wind_speed d <= 15) /\
      (-2 <= road_grade d /\ road_grade d <= 2)
  | montee =>
      road_condition d = 0 /\
      (-2 <= wind_speed d /\ wind_speed d <= 2) /\
      (3 <= road_grade d /\ road_grade d <= 8)
  | _ => calm d
  end.

(** The event slot at a tick boundary: an active event has between 1 tick
    and its duration less one left, and the environment shows its
    perturbation; with no event the environment is calm. *)
Definition slot_ok (s : Simulator) : Prop :=
  match current_event s with
  | Some ev =>
      (1 <= event_duration s)%Z /\ (event_duration s < duration ev)%Z /\
      (duration ev <= 70)%Z /\ environment_under (name ev) (vehicle_data s)
  | None => calm (vehicle_data s)
  end.

(** The simulator with [c] written into [energy_consumption]. *)
Definition with_consumption (c : Q) (s : Simulator) : Simulator :=
  on_data (set_energy_consumption c) s.

(** What every reachable state satisfies. *)
Record well_formed (s : Simulator) : Prop := {
  wf_mode : simulation_mode (vehicle_data s) = current_mode s;
  wf_capacity : battery_capacity (vehicle_data s) = 60;
  wf_weight : vehicle_weight (vehicle_data s) = 1800;
  wf_probability : event_probability s = 0.01;
  wf_battery : 0 <= battery_level (vehicle_data s) /\
               battery_level (vehicle_data s) <= 100;
  wf_temperature : 20 <= temperature (vehicle_data s) /\
                   temperature (vehicle_data s) <= 90;
  wf_motor_load : 0 <= motor_load (vehicle_data s) /\
                  motor_load (vehicle_data s) <= 100;
  wf_tire : 1.5 <= tire_pressure (vehicle_data s) /\
            tire_pressure (vehicle_data s) <= 2.4;
  wf_speed : 0 <= speed (vehicle_data s) /\ speed (vehicle_data s) <= 150;
  wf_distance : 0 <= total_distance (vehicle_data s);
  wf_power : 0 <= instant_consumption (vehicle_data s);
  wf_autonomy : 0 <= autonomy_remaining (vehicle_data s);
  wf_slot : slot_ok s
}.


Section EngineRuns.

Context {G : Type} {rng : NumpyRandom G}.
Variable sin_atan : Q -> Q.

(** The rest of [_update_vehicle_state] after the event steps. *)
Definition tick_body (mp : ModeParams) (dt : Q) (r : Simulator * G)
    : Simulator * G :=
  let (noise, g2) := np_normal 0 (variation_vitesse mp / 10) (snd r) in
  let d := update_thermal mp
             (update_energy sin_atan mp dt
                (update_kinematics mp dt noise (vehicle_data (fst r)))) in
  let (d', g3) := update_tire_pressure mp dt d g2 in
  (set_vehicle_data d' (fst r), g3).

(** The states the public operations lead to from a fresh simulator: any
    interleaving of [start], [stop], [change_mode] and loop iterations with
    a non-negative elapsed time, whatever the generator returns. *)
Inductive reachable : Simulator -> Prop :=
| reach_init : reachable init
| reach_start (mode : option string) (s : Simulator) :
    reachable s -> reachable (start mode s)
| reach_stop (s : Simulator) : reachable s -> reachable (stop s)
| reach_change_mode (new_mode : string) (s : Simulator) :
    reachable s -> reachable (fst (change_mode new_mode s))
| reach_tick (dt : Q) (now : string) (s : Simulator) (g : G) :
    0 <= dt -> reachable s ->
    reachable (fst (fst (loop_iteration sin_atan dt now s g))).

End EngineRuns.

(** ** Subscribers: [on_data_update] *)

Section CallbacksModel.

(** Callables, compared as Python's [in] compares them. *)
Variable Callback : Type.
Variable callback_eq_dec : forall a b : Callback, {a = b} + {a <> b}.

(** [on_data_update], on the list [data_update_callbacks]. *)
Definition on_data_update (callback : Callback)
    (data_update_callbacks : list Callback) : list Callback :=
  if in_dec callback_eq_dec callback data_update_callbacks
  then data_update_callbacks
  else data_update_callbacks ++ [callback].

End CallbacksModel.

Arguments on_data_update {Callback} callback_eq_dec callback data_update_callbacks.

(** ** The pedal-driven engine: [VehiclePhysicsSimulation] *)

Module VehiclePhysicsSimulation.

Definition Vec3 : Type := Q * Q * Q.
Definition Vec4 : Type := Q * Q * Q * Q.

Record VehicleState : Type := {
  position : Vec3;
  velocity : Vec3;
  acceleration : Vec3;
  orientation : Vec3;
  angular_velocity : Vec3;
  wheel_rotations : Vec4;
  battery_level : Q;
  motor_temperature : Q;
  brake_temperature : Q;
  tire_pressure : Vec4
}.

(** The object: the state, the time of the last update ([None] before the
    first one) and the distance counter.  The vehicle constants of
    [__init__] are never assigned again and are definitions below. *)
Record Simulation : Type := {
  state : VehicleState;
  last_update_time : option Q;
  total_distance : Q
}.

Definition mass : Q := 1500.
Definition wheelbase : Q := 2.588.
Definition track_width : Q := 1.788.
Definition cg_height : Q := 0.5.
Definition wheel_radius : Q := 0.31.
Definition drag_coefficient : Q := 0.29.
Definition frontal_area : Q := 2.43.
Definition air_density : Q := 1.225.
Definition rolling_resistance : Q := 0.015.

(** [__init__]. *)
Definition init : Simulation :=
  {| state :=
       {| position := (0.0, 0.0, 0.0);
          velocity := (0.0, 0.0, 0.0);
          acceleration := (0.0, 0.0, 0.0);
          orientation := (0.0, 0.0, 0.0);
          angular_velocity := (0.0, 0.0, 0.0);
          wheel_rotations := (0.0, 0.0, 0.0, 0.0);
          battery_level := 100.0;
          motor_temperature := 20.0;
          brake_temperature := 20.0;
          tire_pressure := (36.0, 36.0, 36.0, 36.0) |};
     last_update_time := None;
     total_distance := 0.0 |}.

(** The [controls] dictionary: each key may be missing. *)
Record Controls : Type := {
  throttle : option Q;
  brake : option Q;
  steering : option Q;
  gear : option Z
}.

(** [controls.get(key, default)]. *)
Definition get {A : Type} (entry : option A) (default : A) : A :=
  match entry with
  | Some v => v
  | None => default
  end.

(** [np.clip], on floats and on the integer gear. *)
Definition np_clip (x lo hi : Q) : Q := Qmin (Qmax x lo) hi.

Definition np_clip_int (x lo hi : Z) : Z := Z.min (Z.max x lo) hi.

(** [np.sign]. *)
Definition np_sign (x : Q) : Q :=
  if Qltb x 0 then -1 else if Qltb 0 x then 1 else 0.

Section Update.

(** [np.linalg.norm], [np.tan] and [np.radians(35)]: irrational in general,
    so they stay parameters. *)
Variable norm : Vec3 -> Q.
Variable tan : Q -> Q.
Variable radians_35 : Q.

(** The turning radius, [None] for [float('inf')].  A zero tangent makes
    the numpy division return an infinity, with which the yaw keeps its
    value. *)
Definition turning_radius (steering_angle : Q) : option Q :=
  if Qltb 0.001 (Qabs steering_angle) then
    if Qeq_bool (tan steering_angle) 0 then None
    else Some (wheelbase / tan steering_angle)
  else None.

(** [update(controls)]; [current_time] is the [time.time()] it reads. *)
Definition update (controls : Controls) (current_time : Q)
    (sim : Simulation) : Simulation :=
  match last_update_time sim with
  | None =>
      {| state := state sim;
         last_update_time := Some current_time;
         total_distance := total_distance sim |}
  | Some last =>
      let st := state sim in
      let dt := current_time - last in
      let throttle := np_clip (get (throttle controls) 0.0) (-1.0) 1.0 in
      let brake := np_clip (get (brake controls) 0.0) 0.0 1.0 in
      let steering := np_clip (get (steering controls) 0.0) (-1.0) 1.0 in
      let gear := inject_Z (np_clip_int (get (gear controls) 0%Z) (-1) 1) in
      let max_engine_force := 20000 in
      let engine_force := max_engine_force * throttle * gear in
      let max_brake_force := 30000 in
      let brake_force := max_brake_force * brake in
      let speed := norm (velocity st) in
      let drag_force :=
        0.5 * air_density * drag_coefficient * frontal_area * speed * speed in
      let rolling_force := mass * 9.81 * rolling_resistance in
      let total_force :=
        engine_force - brake_force - drag_force
        - rolling_force * np_sign speed in
      let a := total_force / mass in
      let '(vx, vy, vz) := velocity st in
      let new_velocity := (vx + a * dt, vy, vz) in
      let '(px, py, pz) := position st in
      let new_position :=
        (px + (vx + a * dt) * dt, py + vy * dt, pz + vz * dt) in
      let max_steering_angle := radians_35 in
      let steering_angle := steering * max_steering_angle in
      let '(roll, pitch, yaw) := orientation st in
      let new_orientation :=
        match turning_radius steering_angle with
        | Some radius =>
            let angular_velocity := speed / radius in
            (roll, pitch, yaw + angular_velocity * dt)
        | None => (roll, pitch, yaw)
        end in
      let wheel_angular_velocity := speed / wheel_radius in
      let wheel_rotation := wheel_angular_velocity * dt in
      let '(w1, w2, w3, w4) := wheel_rotations st in
      let power_consumption := Qabs (engine_force * speed) / 1000 in
      let battery_drain := power_consumption * dt / 3600 in
      let base_motor_temp := 20.0 in
      let max_motor_temp := 120.0 in
      let motor_heat_rate := Qabs engine_force / max_engine_force in
      let target_motor_temp :=
        base_motor_temp + (max_motor_temp - base_motor_temp) * motor_heat_rate in
      let motor_temp_change_rate := 0.1 in
      let base_brake_temp := 20.0 in
      let max_brake_temp := 800.0 in
      let brake_heat_rate := brake * speed / 100 in
      let target_brake_temp :=
        base_brake_temp + (max_brake_temp - base_brake_temp) * brake_heat_rate in
      let brake_temp_change_rate := 0.2 in
      {| state :=
           {| position := new_position;
              velocity := new_velocity;
              acceleration := (a, 0.0, 0.0);
              orientation := new_orientation;
              angular_velocity := angular_velocity st;
              wheel_rotations :=
                (w1 + wheel_rotation, w2 + wheel_rotation,
                 w3 + wheel_rotation, w4 + wheel_rotation);
              battery_level := Qmax 0.0 (battery_level st - battery_drain);
              motor_temperature :=
                motor_temperature st
                + (target_motor_temp - motor_temperature st)
                  * motor_temp_change_rate * dt;
              brake_temperature :=
                brake_temperature st
                + (target_brake_temp - brake_temperature st)
                  * brake_temp_change_rate * dt;
              tire_pressure := tire_pressure st |};
         last_update_time := Some current_time;
         total_distance := total_distance sim + speed * dt |}
  end.

(** [cleanup()]. *)
Definition cleanup (sim : Simulation) : Simulation :=
  {| state := state sim;
     last_update_time := None;
     total_distance := total_distance sim |}.

(** The controls [update] acts on: defaults filled in, values clipped. *)
Definition clipped (controls : Controls) : Controls :=
  {| throttle := Some (np_clip (get (throttle controls) 0.0) (-1.0) 1.0);
     brake := Some (np_clip (get (brake controls) 0.0) 0.0 1.0);
     steering := Some (np_clip (get (steering controls) 0.0) (-1.0) 1.0);
     gear := Some (np_clip_int (get (gear controls) 0%Z) (-1) 1) |}.

End Update.

(** The propulsion force [update] derives from the controls. *)
Definition engine_force (controls : Controls) : Q :=
  20000 * np_clip (get (throttle controls) 0.0) (-1.0) 1.0
  * inject_Z (np_clip_int (get (gear controls) 0%Z) (-1) 1).

(** The brake pedal after clipping. *)
Definition brake_pedal (controls : Controls) : Q :=
  np_clip (get (brake controls) 0.0) 0.0 1.0.

(** Components of a vector. *)
Definition x_of (v : Vec3) : Q := fst (fst v).
Definition y_of (v : Vec3) : Q := snd (fst v).
Definition z_of (v : Vec3) : Q := snd v.

End VehiclePhysicsSimulation.


(** ** Further scenarios *)

(** Raw samples for a tick that starts rain on a fresh simulator: the event
    trial succeeds (0 is below 0.01), the choice lands on the third of the
    seven urban candidates, no noise, no tire change. *)
Definition rain_draw_tick : Replay := [0; 0.3; 0; 0.5].

(** The simulator after that tick. *)
Definition rain_started : Simulator :=
  fst (fst (replay_iteration 0.2 "2026-01-01T08:00:00.200000" init
              rain_draw_tick)).

(** Rain with three ticks left, and the raw samples of three ticks with an
    event active. *)
Definition rain_three_left : Simulator := with_event pluie_event 3 init.

Definition active_run : Replay := (active_tick ++ active_tick ++ active_tick)%list.

(** The norm of a vector along the x axis, the only vectors the scenarios
    use; a tangent that is not evaluated in them (the steering is
    released); 35 degrees in radians, rounded. *)
Definition norm_axial (v : VehiclePhysicsSimulation.Vec3) : Q :=
  Qabs (VehiclePhysicsSimulation.x_of v).

Definition tan_unused (x : Q) : Q := x.

Definition radians_35_rounded : Q := 0.610865.

(** The pedal-driven vehicle at rest, its clock armed at time 100, and the
    same vehicle rolling at 10 m/s. *)
Definition at_rest : VehiclePhysicsSimulation.Simulation :=
  VehiclePhysicsSimulation.update norm_axial tan_unused radians_35_rounded
    {| VehiclePhysicsSimulation.throttle := None;
       VehiclePhysicsSimulation.brake := None;
       VehiclePhysicsSimulation.steering := None;
       VehiclePhysicsSimulation.gear := None |}
    100 VehiclePhysicsSimulation.init.

Definition rolling : VehiclePhysicsSimulation.Simulation :=
  {| VehiclePhysicsSimulation.state :=
       {| VehiclePhysicsSimulation.position := (0, 0, 0);
          VehiclePhysicsSimulation.velocity := (10, 0, 0);
          VehiclePhysicsSimulation.acceleration := (0, 0, 0);
          VehiclePhysicsSimulation.orientation := (0, 0, 0);
          VehiclePhysicsSimulation.angular_velocity := (0, 0, 0);
          VehiclePhysicsSimulation.wheel_rotations := (0, 0, 0, 0);
          VehiclePhysicsSimulation.battery_level := 100;
          VehiclePhysicsSimulation.motor_temperature := 20;
          VehiclePhysicsSimulation.brake_temperature := 20;
          VehiclePhysicsSimulation.tire_pressure := (36, 36, 36, 36) |};
     VehiclePhysicsSimulation.last_update_time := Some 100;
     VehiclePhysicsSimulation.total_distance := 0 |}.

(** Half throttle in drive, and the brake pedal fully pressed. *)
Definition half_throttle : VehiclePhysicsSimulation.Controls :=
  {| VehiclePhysicsSimulation.throttle := Some 0.5;
     VehiclePhysicsSimulation.brake := None;
     VehiclePhysicsSimulation.steering := None;
     VehiclePhysicsSimulation.gear := Some 1%Z |}.

Definition full_brake : VehiclePhysicsSimulation.Controls :=
  {| VehiclePhysicsSimulation.throttle := None;
     VehiclePhysicsSimulation.brake := Some 1;
     VehiclePhysicsSimulation.steering := None;
     VehiclePhysicsSimulation.gear := None |}.

(** * Properties *)

(** ** Comparisons and clamps *)

Lemma Qltb_true (x y : Q) : Qltb x y = true <-> x < y.
Proof.
  unfold Qltb. rewrite negb_true_iff, <- not_true_iff_false, Qle_bool_iff.
  split; [apply Qnot_le_lt | apply Qlt_not_le].
Qed.

Lemma Qltb_false (x y : Q) : Qltb x y = false <-> y <= x.
Proof.
  unfold Qltb. rewrite negb_false_iff. apply Qle_bool_iff.
Qed.

(** [max(lo, min(hi, x))] lands in [[lo, hi]] as soon as [lo <= hi]. *)
Lemma clamp_range (lo hi x : Q) :
  lo <= hi -> lo <= Qmax lo (Qmin hi x) /\ Qmax lo (Qmin hi x) <= hi.
Proof.
  intros Hle. split.
  - apply Q.le_max_l.
  - apply Q.max_lub; [exact Hle | apply Q.le_min_l].
Qed.

(** [min(hi, max(lo, x))], the other nesting. *)
Lemma clamp_range' (lo hi x : Q) :
  lo <= hi -> lo <= Qmin hi (Qmax lo x) /\ Qmin hi (Qmax lo x) <= hi.
Proof.
  intros Hle. split.
  - apply Q.min_glb; [exact Hle | apply Q.le_max_l].
  - apply Q.le_min_l.
Qed.

(** ** The mode table *)

Lemma mode_params_positive (m : Mode) :
  0 < vitesse_max (MODE_PARAMS m) /\ 0 < vitesse_moyenne (MODE_PARAMS m) /\
  0 < acceleration_max (MODE_PARAMS m) /\ 0 < temps_factor (MODE_PARAMS m).
Proof. destruct m; cbn; repeat split; reflexivity. Qed.

Lemma mode_of_key_mode_key (m : Mode) : mode_of_key (mode_key m) = Some m.
Proof. destruct m; reflexivity. Qed.

(** ** Fields a setter leaves alone *)

Lemma set_tire_pressure_same (d : VehicleData) :
  set_tire_pressure (tire_pressure d) d = d.
Proof. destruct d; reflexivity. Qed.

Section Properties.

Context {G : Type} {rng : NumpyRandom G}.
Variable sin_atan : Q -> Q.

Ltac draw :=
  match goal with
  | |- context [np_random ?g] => destruct (np_random g) as [? ?]
  | |- context [np_uniform ?a ?b ?g] => destruct (np_uniform a b g) as [? ?]
  | |- context [np_normal ?a ?b ?g] => destruct (np_normal a b g) as [? ?]
  | |- context [np_choice_index ?n ?g] => destruct (np_choice_index n g) as [? ?]
  end.

Ltac run := unfold bind, ret; cbn [fst snd].

(** *** The tire block only writes [tire_pressure] *)

Lemma update_tire_pressure_only (mp : ModeParams) (dt : Q) (d : VehicleData)
    (g : G) :
  exists p, fst (update_tire_pressure mp dt d g) = set_tire_pressure p d.
Proof.
  unfold update_tire_pressure. run. draw.
  destruct (Qltb _ _).
  - draw. destruct (Qltb _ _); run; [draw|]; eexists; reflexivity.
  - exists (tire_pressure d). now rewrite set_tire_pressure_same.
Qed.

(** *** What the event steps leave alone *)

Lemma events_frame_refl (s : Simulator) : events_frame s s.
Proof. unfold events_frame; repeat split. Qed.

Lemma events_frame_trans (s1 s2 s3 : Simulator) :
  events_frame s1 s2 -> events_frame s2 s3 -> events_frame s1 s3.
Proof.
  unfold events_frame. intros H12 H23.
  repeat match goal with H : _ /\ _ |- _ => destruct H end.
  repeat split; congruence.
Qed.

Lemma handle_random_events_frame (s : Simulator) (g : G) :
  events_frame s (fst (_handle_random_events s g)).
Proof.
  unfold _handle_random_events.
  destruct (current_event s); run; [apply events_frame_refl|].
  draw. destruct (Qltb _ _).
  - unfold np_choice. run. draw. cbn. unfold events_frame. repeat split.
  - apply events_frame_refl.
Qed.

Lemma event_effect_frame (e : EventName) (s : Simulator) (g : G) :
  events_frame s (fst (event_effect e s g)) /\
  current_event (fst (event_effect e s g)) = current_event s /\
  event_duration (fst (event_effect e s g)) = event_duration s.
Proof.
  destruct e; unfold event_effect; run; try draw;
    cbn; unfold events_frame; repeat split.
Qed.

Lemma event_reset_frame (e : EventName) (s : Simulator) (g : G) :
  events_frame s (fst (event_reset e s g)) /\
  current_event (fst (event_reset e s g)) = current_event s /\
  event_duration (fst (event_reset e s g)) = event_duration s.
Proof.
  destruct e; unfold event_reset; run; try draw;
    cbn; unfold events_frame; repeat split.
Qed.

Lemma apply_event_effects_frame (s : Simulator) (g : G) :
  events_frame s (fst (_apply_event_effects s g)).
Proof.
  unfold _apply_event_effects.
  destruct (current_event s) as [ev|]; run; [|apply events_frame_refl].
  pose proof (event_effect_frame (name ev) s g) as [Hf _].
  destruct (event_effect (name ev) s g) as [s1 g1]. cbn [fst] in Hf.
  cbn [event_duration set_event_duration].
  destruct (_ <=? _)%Z.
  - pose proof (event_reset_frame (name ev)
                  (set_event_duration (event_duration s1 - 1) s1) g1) as [Hr _].
    destruct (event_reset _ _ g1) as [s2 g2]. cbn [fst] in Hr |- *.
    eapply events_frame_trans; [exact Hf|].
    eapply events_frame_trans; [|exact Hr].
    unfold events_frame; repeat split.
  - cbn [fst]. eapply events_frame_trans; [exact Hf|].
    unfold events_frame; repeat split.
Qed.

Lemma events_stage_frame (s : Simulator) (g : G) :
  events_frame s (fst (events_stage s g)).
Proof.
  unfold events_stage, bind.
  pose proof (handle_random_events_frame s g) as Hh.
  destruct (_handle_random_events s g) as [s1 g1]. cbn [fst] in Hh.
  eapply events_frame_trans; [exact Hh|].
  destruct (current_event s1).
  - apply apply_event_effects_frame.
  - apply events_frame_refl.
Qed.

(** *** The shape of a tick *)

(** [_update_vehicle_state] is the event steps, the noise draw, the three
    physics blocks on the data, and the tire block. *)
Lemma update_vehicle_state_unfold (dt : Q) (s : Simulator) (g : G) :
  let mp := MODE_PARAMS (current_mode s) in
  let s1 := fst (events_stage s g) in
  let g1 := snd (events_stage s g) in
  let noise := fst (np_normal 0 (variation_vitesse mp / 10) g1) in
  let g2 := snd (np_normal 0 (variation_vitesse mp / 10) g1) in
  let d := update_thermal mp
             (update_energy sin_atan mp dt
                (update_kinematics mp dt noise (vehicle_data s1))) in
  fst (_update_vehicle_state sin_atan dt s g)
  = set_vehicle_data (fst (update_tire_pressure mp dt d g2)) s1.
Proof.
  unfold _update_vehicle_state, events_stage, bind, ret.
  destruct (_handle_random_events s g) as [s1 g1].
  destruct (current_event s1).
  - destruct (_apply_event_effects s1 g1) as [s2 g2]. cbn [fst snd].
    destruct (np_normal _ _ g2) as [noise g3]. cbn [fst snd].
    destruct (update_tire_pressure _ _ _ g3). reflexivity.
  - cbn [fst snd].
    destruct (np_normal _ _ g1) as [noise g3]. cbn [fst snd].
    destruct (update_tire_pressure _ _ _ g3). reflexivity.
Qed.

Lemma update_vehicle_state_data (dt : Q) (s : Simulator) (g : G) :
  exists p,
    fst (_update_vehicle_state sin_atan dt s g)
    = set_vehicle_data (set_tire_pressure p (tick_physics sin_atan dt s g))
        (fst (events_stage s g)).
Proof.
  pose proof (update_vehicle_state_unfold dt s g) as Hu. cbv zeta in Hu.
  destruct (update_tire_pressure_only (MODE_PARAMS (current_mode s)) dt
              (tick_physics sin_atan dt s g)
              (snd (np_normal 0
                      (variation_vitesse (MODE_PARAMS (current_mode s)) / 10)
                      (snd (events_stage s g))))) as [p Hp].
  exists p. rewrite Hu. unfold tick_physics, tick_noise in Hp |- *.
  now rewrite Hp.
Qed.

Lemma loop_iteration_state (dt : Q) (now : string) (s : Simulator) (g : G) :
  fst (fst (loop_iteration sin_atan dt now s g))
  = _calculate_energy_consumption (fst (_update_vehicle_state sin_atan dt s g)).
Proof.
  unfold loop_iteration, bind, ret.
  now destruct (_update_vehicle_state sin_atan dt s g).
Qed.

Lemma loop_iteration_snapshot (dt : Q) (now : string) (s : Simulator) (g : G) :
  snd (fst (loop_iteration sin_atan dt now s g))
  = get_current_data now (fst (fst (loop_iteration sin_atan dt now s g))).
Proof.
  unfold loop_iteration, bind, ret.
  now destruct (_update_vehicle_state sin_atan dt s g).
Qed.

Lemma loop_iteration_generator (dt : Q) (now : string) (s : Simulator) (g : G) :
  snd (loop_iteration sin_atan dt now s g)
  = snd (_update_vehicle_state sin_atan dt s g).
Proof.
  unfold loop_iteration, bind, ret.
  now destruct (_update_vehicle_state sin_atan dt s g).
Qed.

(** *** What the energy and thermal blocks leave alone *)

Lemma update_energy_keeps (mp : ModeParams) (dt : Q) (d : VehicleData) :
  let d' := update_energy sin_atan mp dt d in
  speed d' = speed d /\ acceleration d' = acceleration d /\
  total_distance d' = total_distance d /\ temperature d' = temperature d /\
  motor_load d' = motor_load d /\ battery_capacity d' = battery_capacity d /\
  road_grade d' = road_grade d /\ wind_speed d' = wind_speed d /\
  road_condition d' = road_condition d.
Proof.
  unfold update_energy. cbv zeta.
  cbn [speed set_instant_consumption].
  destruct (Qltb 5 (speed d)); cbn; repeat split.
Qed.

Lemma update_kinematics_keeps (mp : ModeParams) (dt noise : Q)
    (d : VehicleData) :
  let d' := update_kinematics mp dt noise d in
  temperature d' = temperature d /\ motor_load d' = motor_load d /\
  battery_level d' = battery_level d /\
  battery_capacity d' = battery_capacity d /\
  road_grade d' = road_grade d /\ wind_speed d' = wind_speed d /\
  road_condition d' = road_condition d.
Proof. cbn. repeat split. Qed.

(** *** Speed *)

Lemma update_kinematics_speed (mp : ModeParams) (dt noise : Q)
    (d : VehicleData) :
  0 <= vitesse_max mp ->
  0 <= speed (update_kinematics mp dt noise d) /\
  speed (update_kinematics mp dt noise d) <= vitesse_max mp.
Proof. intros Hmax. cbn. now apply clamp_range. Qed.

Lemma update_thermal_speed (mp : ModeParams) (d : VehicleData) :
  speed (update_thermal mp d) = speed d.
Proof. reflexivity. Qed.

Lemma tick_physics_speed (dt : Q) (s : Simulator) (g : G) :
  0 <= speed (tick_physics sin_atan dt s g) /\
  speed (tick_physics sin_atan dt s g) <= vitesse_max (MODE_PARAMS (current_mode s)).
Proof.
  unfold tick_physics.
  rewrite update_thermal_speed.
  destruct (update_energy_keeps (MODE_PARAMS (current_mode s)) dt
    (update_kinematics (MODE_PARAMS (current_mode s)) dt (tick_noise s g)
       (vehicle_data (fst (events_stage s g))))) as [-> _].
  apply update_kinematics_speed.
  destruct (mode_params_positive (current_mode s)) as [H _].
  now apply Qlt_le_weak.
Qed.

(** [_calculate_energy_consumption] writes [energy_consumption] only. *)
Lemma calculate_energy_consumption_data (s : Simulator) :
  exists c,
    _calculate_energy_consumption s
    = set_vehicle_data (set_energy_consumption c (vehicle_data s)) s.
Proof. eexists. reflexivity. Qed.

Lemma tick_frame_intro (p c : Q) (d : VehicleData) :
  tick_frame d (set_energy_consumption c (set_tire_pressure p d)).
Proof. unfold tick_frame. cbn. repeat split. Qed.

(** The state after one loop iteration: the event steps' simulator, holding
    the physics blocks' data up to tire pressure and consumption figure. *)
Lemma loop_iteration_shape (dt : Q) (now : string) (s : Simulator) (g : G) :
  let s' := fst (fst (loop_iteration sin_atan dt now s g)) in
  tick_frame (tick_physics sin_atan dt s g) (vehicle_data s') /\
  current_mode s' = current_mode s /\
  current_event s' = current_event (fst (events_stage s g)) /\
  event_duration s' = event_duration (fst (events_stage s g)).
Proof.
  cbv zeta. rewrite loop_iteration_state.
  destruct (update_vehicle_state_data dt s g) as [p ->].
  destruct (calculate_energy_consumption_data
              (set_vehicle_data (set_tire_pressure p (tick_physics sin_atan dt s g))
                 (fst (events_stage s g)))) as [c ->].
  destruct (events_stage_frame s g) as [Hmode _]. revert Hmode.
  generalize (fst (events_stage s g)) (tick_physics sin_atan dt s g).
  intros s1 d Hmode. cbn [vehicle_data set_vehicle_data current_mode
                          current_event event_duration].
  split; [apply tick_frame_intro | now repeat split].
Qed.

(** C1. After every tick the speed is between 0 and the maximum speed of
    the active mode's profile, whatever event is active and whatever the
    speed was before; in particular in the tick that follows a
    [change_mode]. *)
Theorem speed_within_mode_limits (dt : Q) (now : string) (s : Simulator)
    (g : G) :
  (let s' := fst (fst (loop_iteration sin_atan dt now s g)) in
   0 <= speed (vehicle_data s') /\
   speed (vehicle_data s') <= vitesse_max (MODE_PARAMS (current_mode s'))) /\
  (forall key : string,
      let s' := fst (fst (loop_iteration sin_atan dt now
                            (fst (change_mode key s)) g)) in
      0 <= speed (vehicle_data s') /\
      speed (vehicle_data s') <= vitesse_max (MODE_PARAMS (current_mode s'))).
Proof.
  assert (Htick : forall s0 : Simulator,
    let s' := fst (fst (loop_iteration sin_atan dt now s0 g)) in
    0 <= speed (vehicle_data s') /\
    speed (vehicle_data s') <= vitesse_max (MODE_PARAMS (current_mode s'))).
  { intros s0. cbv zeta.
    destruct (loop_iteration_shape dt now s0 g) as ((-> & _) & -> & _).
    apply tick_physics_speed. }
  split; [apply Htick | intros key; apply Htick].
Qed.

(** *** Motor temperature *)

Lemma update_thermal_temperature (mp : ModeParams) (d : VehicleData) :
  20 <= temperature (update_thermal mp d) /\
  temperature (update_thermal mp d) <= 90.
Proof.
  unfold update_thermal. cbn [temperature set_motor_load set_temperature].
  now apply clamp_range.
Qed.

(** C10. After every tick the motor temperature lies between the 20 degree
    ambient and the 90 degree cap, whatever it was before the tick. *)
Theorem motor_temperature_within_20_90 (dt : Q) (now : string)
    (s : Simulator) (g : G) :
  let s' := fst (fst (loop_iteration sin_atan dt now s g)) in
  20 <= temperature (vehicle_data s') /\ temperature (vehicle_data s') <= 90.
Proof.
  cbv zeta.
  destruct (loop_iteration_shape dt now s g) as ((_ & _ & -> & _) & _).
  apply update_thermal_temperature.
Qed.

(** *** Acceleration *)

Lemma update_thermal_acceleration (mp : ModeParams) (d : VehicleData) :
  acceleration (update_thermal mp d) = acceleration d.
Proof. reflexivity. Qed.

Lemma update_kinematics_acceleration (mp : ModeParams) (dt noise : Q)
    (d : VehicleData) :
  acceleration (update_kinematics mp dt noise d)
  = Qmin (acceleration_max mp)
      (Qmax (- acceleration_max mp)
         (speed_change mp noise d / (3.6 * Qmax 0.1 dt))).
Proof. reflexivity. Qed.

(** The floored denominator never falls below 3.6 * 0.1. *)
Lemma acceleration_denominator_floor (dt : Q) : 0.36 <= 3.6 * Qmax 0.1 dt.
Proof. pose proof (Q.le_max_l 0.1 dt). lra. Qed.

Lemma quotient_bounded (x den : Q) :
  0.36 <= den -> Qabs (x / den) <= Qabs x / 0.36.
Proof.
  intros Hden.
  assert (Hpos : 0 < den) by lra.
  unfold Qdiv. rewrite Qabs_Qmult.
  assert (Hinv : 0 < / den) by now apply Qinv_lt_0_compat.
  rewrite (Qabs_pos (/ den)) by now apply Qlt_le_weak.
  apply Qmult_le_compat_nonneg.
  - split; [apply Qabs_nonneg | apply Qle_refl].
  - split; [now apply Qlt_le_weak|].
    apply Qle_shift_inv_r; [exact Hpos|].
    setoid_replace (/ 0.36 * den) with (den / 0.36) by field.
    apply Qle_shift_div_l; [reflexivity | lra].
Qed.

(** C7. The acceleration a tick stores is the speed change divided by
    [3.6 * max(0.1, dt)], clamped to the active mode's maximum acceleration
    on both sides.  The denominator is at least 0.36 for every [dt], zero
    and negative ones included, so the quotient is bounded by the speed
    change over 0.36. *)
Theorem acceleration_floored_and_clamped (dt : Q) (now : string)
    (s : Simulator) (g : G) :
  let mp := MODE_PARAMS (current_mode s) in
  let change :=
    speed_change mp (tick_noise s g) (vehicle_data (fst (events_stage s g))) in
  let s' := fst (fst (loop_iteration sin_atan dt now s g)) in
  acceleration (vehicle_data s')
  = Qmin (acceleration_max mp)
      (Qmax (- acceleration_max mp) (change / (3.6 * Qmax 0.1 dt))) /\
  0.36 <= 3.6 * Qmax 0.1 dt /\
  Qabs (change / (3.6 * Qmax 0.1 dt)) <= Qabs change / 0.36 /\
  - acceleration_max mp <= acceleration (vehicle_data s') /\
  acceleration (vehicle_data s') <= acceleration_max mp.
Proof.
  cbv zeta.
  destruct (loop_iteration_shape dt now s g) as ((_ & -> & _) & _).
  unfold tick_physics. rewrite update_thermal_acceleration.
  destruct (update_energy_keeps (MODE_PARAMS (current_mode s)) dt
    (update_kinematics (MODE_PARAMS (current_mode s)) dt (tick_noise s g)
       (vehicle_data (fst (events_stage s g))))) as (_ & -> & _).
  rewrite update_kinematics_acceleration.
  destruct (mode_params_positive (current_mode s)) as (_ & _ & Hacc & _).
  split; [reflexivity|].
  split; [apply acceleration_denominator_floor|].
  split; [apply quotient_bounded, acceleration_denominator_floor|].
  apply clamp_range'. lra.
Qed.

(** *** Distance and battery *)

Lemma update_kinematics_total_distance (mp : ModeParams) (dt noise : Q)
    (d : VehicleData) :
  0 <= dt -> 0 <= temps_factor mp ->
  total_distance d <= total_distance (update_kinematics mp dt noise d).
Proof.
  intros Hdt Htf. unfold update_kinematics.
  cbn [total_distance set_total_distance set_speed set_acceleration speed].
  set (v := Qmax 0 _).
  assert (Hv : 0 <= v) by apply Q.le_max_l.
  assert (H1 : 0 <= v * dt) by now apply Qmult_le_0_compat.
  assert (H2 : 0 <= v * dt * temps_factor mp) by now apply Qmult_le_0_compat.
  assert (H3 : 0 <= v * dt * temps_factor mp / 3600).
  { apply Qle_shift_div_l; [reflexivity | lra]. }
  lra.
Qed.

Lemma update_energy_instant_consumption (mp : ModeParams) (dt : Q)
    (d : VehicleData) :
  0 <= instant_consumption (update_energy sin_atan mp dt d).
Proof.
  unfold update_energy. cbv zeta.
  cbn [speed set_instant_consumption].
  destruct (Qltb 5 (speed d));
    cbn [instant_consumption set_autonomy_remaining set_battery_level
         set_energy_consumption set_instant_consumption];
    apply Q.le_max_l.
Qed.

Lemma update_energy_battery_level (mp : ModeParams) (dt : Q)
    (d : VehicleData) :
  let d' := update_energy sin_atan mp dt d in
  battery_level d'
  = Qmax 0 (battery_level d
            - (instant_consumption d' * dt) / 3600 / battery_capacity d * 100).
Proof.
  unfold update_energy. cbv zeta.
  cbn [speed set_instant_consumption].
  destruct (Qltb 5 (speed d)); reflexivity.
Qed.

(** Each tick takes a non-negative percentage off the battery. *)
Lemma battery_percentage_used_nonneg (inst dt cap : Q) :
  0 <= inst -> 0 <= dt -> 0 < cap -> 0 <= (inst * dt) / 3600 / cap * 100.
Proof.
  intros Hi Hdt Hcap.
  assert (H1 : 0 <= inst * dt) by now apply Qmult_le_0_compat.
  assert (H2 : 0 <= inst * dt / 3600).
  { apply Qle_shift_div_l; [reflexivity | lra]. }
  assert (H3 : 0 <= inst * dt / 3600 / cap).
  { apply Qle_shift_div_l; [exact Hcap | lra]. }
  lra.
Qed.

(** The divisors of the energy block are positive on the data the
    kinematics block hands over (speed clamped at 0 from below). *)
Lemma update_energy_divisors (m : Mode) (d : VehicleData) :
  0 <= speed d -> 0 < battery_capacity d ->
  0 < Qmax 0.7 (0.9 - 0.1 * (temperature d - 25) / 60) /\
  0 < battery_capacity d /\
  0 < conso_base (MODE_PARAMS m)
      * (1 + 0.1 * (speed d / vitesse_moyenne (MODE_PARAMS m) - 1)).
Proof.
  intros Hv Hcap. split; [|split; [exact Hcap|]].
  - eapply Qlt_le_trans; [|apply Q.le_max_l]. reflexivity.
  - assert (Hq : 0 <= speed d / vitesse_moyenne (MODE_PARAMS m)).
    { destruct (mode_params_positive m) as (_ & Hvm & _).
      apply Qle_shift_div_l; [exact Hvm | lra]. }
    assert (Hbase : 0 < conso_base (MODE_PARAMS m))
      by (destruct m; reflexivity).
    apply Qmult_lt_0_compat; [exact Hbase | lra].
Qed.

Lemma update_thermal_keeps (mp : ModeParams) (d : VehicleData) :
  total_distance (update_thermal mp d) = total_distance d /\
  battery_level (update_thermal mp d) = battery_level d /\
  battery_capacity (update_thermal mp d) = battery_capacity d.
Proof. repeat split. Qed.

Lemma loop_iteration_monotone (dt : Q) (now : string) (s : Simulator)
    (g : G) :
  0 <= dt -> battery_ok (vehicle_data s) ->
  let s' := fst (fst (loop_iteration sin_atan dt now s g)) in
  tick_monotone (vehicle_data s) (vehicle_data s') /\
  battery_ok (vehicle_data s').
Proof.
  intros Hdt (Hb0 & Hb100 & Hcap). cbv zeta.
  destruct (loop_iteration_shape dt now s g)
    as ((_ & _ & _ & Hbat & Hcap' & _ & _ & _ & _ & Hdist) & _).
  unfold tick_monotone, battery_ok. rewrite Hbat, Hcap', Hdist.
  clear Hbat Hcap' Hdist.
  destruct (events_stage_frame s g) as (_ & _ & _ & Eb & Ec & Ed & _).
  destruct (mode_params_positive (current_mode s)) as (_ & _ & _ & Htf).
  unfold tick_physics.
  set (mp := MODE_PARAMS (current_mode s)) in *.
  set (d1 := vehicle_data (fst (events_stage s g))) in *.
  set (d2 := update_kinematics mp dt (tick_noise s g) d1).
  destruct (update_thermal_keeps mp (update_energy sin_atan mp dt d2))
    as (-> & -> & ->).
  destruct (update_energy_keeps mp dt d2) as (_ & _ & -> & _ & _ & -> & _).
  rewrite (update_energy_battery_level mp dt d2).
  pose proof (update_energy_instant_consumption mp dt d2) as Hinst.
  destruct (update_kinematics_keeps mp dt (tick_noise s g) d1)
    as (_ & _ & Eb2 & Ec2 & _).
  fold d2 in Eb2, Ec2. rewrite Eb2, Ec2.
  pose proof (update_kinematics_total_distance mp dt (tick_noise s g) d1 Hdt
                (Qlt_le_weak _ _ Htf)) as Hd2.
  fold d2 in Hd2. rewrite Ed in Hd2. rewrite Eb, Ec.
  assert (Hused : 0 <= instant_consumption (update_energy sin_atan mp dt d2)
                       * dt / 3600 / battery_capacity (vehicle_data s) * 100).
  { now apply battery_percentage_used_nonneg. }
  set (used := _ * dt / 3600 / _ * 100) in *.
  assert (Hmax : Qmax 0 (battery_level (vehicle_data s) - used)
                 <= battery_level (vehicle_data s)).
  { apply Q.max_lub; lra. }
  pose proof (Q.le_max_l 0 (battery_level (vehicle_data s) - used)).
  repeat split; try assumption; lra.
Qed.

(** *** Runs of the loop *)

Lemma simulation_loop_cons (last_update current_time : Q) (now : string)
    (clock : list (Q * string)) (s : Simulator) (g : G) :
  let r := loop_iteration sin_atan (current_time - last_update) now s g in
  let r' := _simulation_loop sin_atan current_time clock (fst (fst r)) (snd r) in
  _simulation_loop sin_atan last_update ((current_time, now) :: clock) s g
  = ((fst (fst r'), snd (fst r) :: snd (fst r')), snd r').
Proof.
  cbv zeta. cbn [_simulation_loop]. unfold bind, ret.
  destruct (loop_iteration sin_atan (current_time - last_update) now s g)
    as [[s1 sn] g1].
  cbn [fst snd].
  now destruct (_simulation_loop sin_atan current_time clock s1 g1)
    as [[s2 sns] g2].
Qed.

(** C2. Along any run of the loop whose elapsed times are non-negative,
    from a state whose battery level is within [0, 100], each snapshot has
    a total distance at least its predecessor's and a battery level at most
    its predecessor's and still within [0, 100]. *)
Theorem distance_and_battery_monotone (last_update : Q)
    (clock : list (Q * string)) (s : Simulator) (g : G) :
  Forall (fun dt => 0 <= dt) (elapsed_times last_update clock) ->
  battery_ok (vehicle_data s) ->
  monotone_from (vehicle_data s)
    (snd (fst (_simulation_loop sin_atan last_update clock s g))).
Proof.
  revert last_update s g.
  induction clock as [|[current_time now] clock IH];
    intros last_update s g Hdts Hok.
  - exact I.
  - cbn [elapsed_times] in Hdts. inversion Hdts as [|dt dts Hdt Hrest]; subst.
    rewrite simulation_loop_cons. cbn [fst snd monotone_from].
    rewrite loop_iteration_snapshot. cbn [data get_current_data].
    destruct (loop_iteration_monotone (current_time - last_update) now s g
                Hdt Hok) as [Hmono Hok'].
    split; [exact Hmono|].
    now apply IH.
Qed.

(** *** The event state machine *)

Lemma handle_random_events_active (s : Simulator) (g : G) (ev : Event) :
  current_event s = Some ev -> _handle_random_events s g = (s, g).
Proof. intros Hev. unfold _handle_random_events. now rewrite Hev. Qed.

Lemma events_stage_active (s : Simulator) (g : G) (ev : Event) :
  current_event s = Some ev ->
  events_stage s g = _apply_event_effects s g.
Proof.
  intros Hev. unfold events_stage, bind.
  rewrite (handle_random_events_active s g ev Hev). now rewrite Hev.
Qed.

(** One application of the active event: the counter goes down by one; the
    slot is emptied exactly when the counter reaches 0. *)
Lemma apply_event_effects_slot (s : Simulator) (g : G) (ev : Event) :
  current_event s = Some ev ->
  let s' := fst (_apply_event_effects s g) in
  event_duration s' = (event_duration s - 1)%Z /\
  ((event_duration s <= 1)%Z -> current_event s' = None) /\
  ((1 < event_duration s)%Z -> current_event s' = Some ev).
Proof.
  intros Hev. cbv zeta. unfold _apply_event_effects. rewrite Hev. run.
  pose proof (event_effect_frame (name ev) s g) as (_ & Hce & Hd).
  destruct (event_effect (name ev) s g) as [s1 g1]. cbn [fst] in Hce, Hd.
  cbn [event_duration set_event_duration]. rewrite Hd.
  destruct (Z.leb_spec (event_duration s - 1) 0) as [Hend|Hgo].
  - pose proof (event_reset_frame (name ev)
                  (set_event_duration (event_duration s - 1) s1) g1)
      as (_ & _ & Hd2).
    destruct (event_reset _ _ g1) as [s2 g2]. cbn [fst] in Hd2 |- *.
    cbn [event_duration current_event set_current_event].
    rewrite Hd2. cbn [event_duration set_event_duration].
    repeat split; intros; lia.
  - cbn [fst event_duration current_event set_event_duration].
    rewrite Hce, Hev. repeat split; intros; lia.
Qed.

(** C5. The simulator has a single event slot.  While it is occupied,
    [_handle_random_events] changes nothing and draws nothing from the
    generator, and a whole tick leaves the slot either holding the same
    event or empty. *)
Theorem active_event_suppresses_draws (dt : Q) (now : string)
    (s : Simulator) (g : G) (ev : Event) :
  current_event s = Some ev ->
  _handle_random_events s g = (s, g) /\
  (let s' := fst (fst (loop_iteration sin_atan dt now s g)) in
   current_event s' = Some ev \/ current_event s' = None).
Proof.
  intros Hev. split; [now apply handle_random_events_active with ev|].
  cbv zeta.
  destruct (loop_iteration_shape dt now s g) as (_ & _ & -> & _).
  rewrite (events_stage_active s g ev Hev).
  destruct (apply_event_effects_slot s g ev Hev) as (_ & Hend & Hgo).
  destruct (Z.le_gt_cases (event_duration s) 1) as [Hle|Hgt].
  - right. now apply Hend.
  - left. apply Hgo. lia.
Qed.

(** The physics blocks do not write the environment fields. *)
Lemma tick_physics_environment (dt : Q) (s : Simulator) (g : G) :
  let d1 := vehicle_data (fst (events_stage s g)) in
  road_condition (tick_physics sin_atan dt s g) = road_condition d1 /\
  wind_speed (tick_physics sin_atan dt s g) = wind_speed d1 /\
  road_grade (tick_physics sin_atan dt s g) = road_grade d1.
Proof.
  cbv zeta. unfold tick_physics.
  set (mp := MODE_PARAMS (current_mode s)).
  set (d1 := vehicle_data (fst (events_stage s g))).
  set (d2 := update_kinematics mp dt (tick_noise s g) d1).
  destruct (update_energy_keeps mp dt d2)
    as (_ & _ & _ & _ & _ & _ & Hg & Hw & Hc).
  destruct (update_kinematics_keeps mp dt (tick_noise s g) d1)
    as (_ & _ & _ & _ & Hg1 & Hw1 & Hc1).
  fold d2 in Hg1, Hw1, Hc1.
  assert (Ht : forall d,
             road_condition (update_thermal mp d) = road_condition d /\
             wind_speed (update_thermal mp d) = wind_speed d /\
             road_grade (update_thermal mp d) = road_grade d)
    by (intros d; repeat split).
  destruct (Ht (update_energy sin_atan mp dt d2)) as (-> & -> & ->).
  repeat split; congruence.
Qed.




(** *** Red light and toll booth *)

Lemma event_reset_speed (e : EventName) (s : Simulator) (g : G) :
  speed (vehicle_data (fst (event_reset e s g))) = speed (vehicle_data s).
Proof. destruct e; unfold event_reset; run; try draw; reflexivity. Qed.

(** After [_apply_event_effects] the speed is the one the event's effect
    left: neither the counter nor the closing reset writes it. *)
Lemma apply_event_effects_speed (s : Simulator) (g : G) (ev : Event) :
  current_event s = Some ev ->
  speed (vehicle_data (fst (_apply_event_effects s g)))
  = speed (vehicle_data (fst (event_effect (name ev) s g))).
Proof.
  intros Hev. unfold _apply_event_effects. rewrite Hev. run.
  destruct (event_effect (name ev) s g) as [s1 g1]. cbn [fst].
  destruct (_ <=? _)%Z; [|reflexivity].
  pose proof (event_reset_speed (name ev)
                (set_event_duration (event_duration s1 - 1) s1) g1) as Hkeep.
  destruct (event_reset _ _ g1) as [s2 g2]. exact Hkeep.
Qed.

(** C8 (amended). While active, the red light takes 5 km/h off the speed per
    tick and the toll booth takes 10 km/h, both floored at 0: the toll
    booth's decrement is the larger of the two. *)
Theorem red_light_and_toll_decrements (s : Simulator) (g : G) (ev : Event) :
  current_event s = Some ev ->
  let v' := speed (vehicle_data (fst (_apply_event_effects s g))) in
  (name ev = feu_rouge -> v' = Qmax 0 (speed (vehicle_data s) - 5)) /\
  (name ev = peage -> v' = Qmax 0 (speed (vehicle_data s) - 10)) /\
  5 < 10.
Proof.
  intros Hev. cbv zeta. rewrite (apply_event_effects_speed s g ev Hev).
  repeat split; intros Hname; rewrite Hname; reflexivity.
Qed.

(** *** The consumption figure *)

(** What [_update_vehicle_state] itself leaves in [energy_consumption]:
    power over speed times 100 above 5 km/h, the mode's base consumption
    otherwise. *)
Lemma update_energy_energy_consumption (mp : ModeParams) (dt : Q)
    (d : VehicleData) :
  let d' := update_energy sin_atan mp dt d in
  energy_consumption d'
  = if Qltb 5 (speed d) then instant_consumption d' / speed d * 100
    else conso_base mp.
Proof.
  unfold update_energy. cbv zeta.
  cbn [speed set_instant_consumption].
  destruct (Qltb 5 (speed d)); reflexivity.
Qed.

(** What the snapshot carries instead: the sum that
    [_calculate_energy_consumption] writes over it. *)
Lemma snapshot_energy_consumption (dt : Q) (now : string) (s : Simulator)
    (g : G) :
  let s1 := fst (_update_vehicle_state sin_atan dt s g) in
  let d := vehicle_data s1 in
  energy_consumption (data (snd (fst (loop_iteration sin_atan dt now s g))))
  = conso_base (MODE_PARAMS (current_mode s1)) * mode_factor (current_mode s1)
    + 0.01 * speed d ^ 2 + 2 * Qabs (acceleration d)
    + 0.1 * Qabs (temperature d - 20) + 0.05 * (100 - battery_level d)
    + 0.02 * motor_load d + 0.5 * Qabs (road_grade d)
    + 0.2 * Qabs (wind_speed d) + 1 * road_condition d.
Proof.
  cbv zeta. rewrite loop_iteration_snapshot, loop_iteration_state.
  generalize (fst (_update_vehicle_state sin_atan dt s g)). intros s1.
  reflexivity.
Qed.

End Properties.

(** ** Mode keys *)

(** C6 (amended). An unknown mode key changes nothing: [change_mode]
    returns [False] and leaves the simulator as it was, and [start] keeps
    the mode and the data it had.  The mode after the call is therefore
    Urban on a fresh simulator, and whatever mode was active otherwise. *)
Theorem unknown_mode_key_keeps_mode (key : string) (s : Simulator) :
  mode_of_key key = None ->
  change_mode key s = (s, false) /\
  current_mode (start (Some key) s) = current_mode s /\
  vehicle_data (start (Some key) s) = vehicle_data s /\
  current_mode (start (Some key) init) = MODE_URBAIN.
Proof.
  intros Hkey. unfold change_mode, start. rewrite Hkey.
  repeat split; destruct (is_running s); reflexivity.
Qed.

(** * The scenarios, evaluated *)

(** ** C3: the consumption figure of the snapshot *)

(** C3. On the first tick of a fresh simulator (0.2 s elapsed, no event, no
    noise) the speed ends at 1 km/h, below the 5 km/h threshold, yet the
    snapshot's consumption is not the Urban base consumption of 16: it is
    the sum [_calculate_energy_consumption] wrote over it, about 20.2. *)
Theorem snapshot_consumption_overwritten :
  let sn := snd (fst (replay_iteration 0.2 "2026-01-01T00:00:00" init quiet_tick)) in
  speed (data sn) == 1 /\
  ~ energy_consumption (data sn) == conso_base (MODE_PARAMS MODE_URBAIN) /\
  energy_consumption (data sn) == 12219814819805281 # 604661760000000 /\
  energy_consumption
    (vehicle_data
       (fst (_update_vehicle_state sin_atan_flat 0.2 init quiet_tick)))
  == conso_base (MODE_PARAMS MODE_URBAIN).
Proof.
  cbv zeta. repeat split; try (intros H; revert H); vm_compute; congruence.
Qed.

(** ** C6: unknown mode keys *)

(** C6, as stated, fails: with the simulator in sport mode the unknown key
    "turbo" leaves it in sport mode, through [change_mode] and through
    [start] alike. *)
Lemma unknown_mode_key_not_urban :
  mode_of_key "turbo" = None /\
  current_mode (fst (change_mode "turbo" sport_simulator)) = MODE_SPORT /\
  current_mode (start (Some "turbo"%string) sport_simulator) = MODE_SPORT /\
  ~ (mode_of_key "turbo" = None ->
     current_mode (fst (change_mode "turbo" sport_simulator)) = MODE_URBAIN /\
     current_mode (start (Some "turbo"%string) sport_simulator) = MODE_URBAIN).
Proof.
  repeat split. intros H. destruct (H eq_refl) as [H1 _]. discriminate H1.
Qed.

Lemma unknown_mode_key_keeps_mode_witness :
  mode_of_key "turbo" = None /\
  (change_mode "turbo" sport_simulator = (sport_simulator, false) /\
   current_mode (start (Some "turbo"%string) sport_simulator)
   = current_mode sport_simulator /\
   vehicle_data (start (Some "turbo"%string) sport_simulator)
   = vehicle_data sport_simulator /\
   current_mode (start (Some "turbo"%string) init) = MODE_URBAIN).
Proof.
  split; [reflexivity|].
  apply (unknown_mode_key_keeps_mode "turbo" sport_simulator). reflexivity.
Defined.

(** ** C8: red light and toll booth *)

(** C8, as stated, fails: at 50 km/h one tick of red light leaves 45 and one
    tick of toll booth leaves 40, so no pair of decrements with the toll
    booth's strictly smaller accounts for both. *)
Lemma toll_decrement_not_smaller :
  let red :=
    speed (vehicle_data
             (fst (_apply_event_effects (with_event feu_rouge_event 15 at_50)
                     ([] : Replay)))) in
  let toll :=
    speed (vehicle_data
             (fst (_apply_event_effects (with_event peage_event 10 at_50)
                     ([] : Replay)))) in
  red == 45 /\ toll == 40 /\
  ~ (exists d_red d_toll : Q,
        d_toll < d_red /\ red == Qmax 0 (50 - d_red) /\
        toll == Qmax 0 (50 - d_toll)).
Proof.
  cbv zeta.
  assert (Hred : speed (vehicle_data
             (fst (_apply_event_effects (with_event feu_rouge_event 15 at_50)
                     ([] : Replay)))) == 45) by (vm_compute; reflexivity).
  assert (Htoll : speed (vehicle_data
             (fst (_apply_event_effects (with_event peage_event 10 at_50)
                     ([] : Replay)))) == 40) by (vm_compute; reflexivity).
  split; [exact Hred|]. split; [exact Htoll|].
  intros (d_red & d_toll & Hlt & Er & Et).
  rewrite Hred in Er. rewrite Htoll in Et.
  destruct (Q.max_spec 0 (50 - d_red)) as [[_ E1]|[_ E1]];
    destruct (Q.max_spec 0 (50 - d_toll)) as [[_ E2]|[_ E2]];
    rewrite E1 in Er; rewrite E2 in Et; lra.
Qed.

Lemma red_light_and_toll_decrements_witness :
  current_event (with_event feu_rouge_event 15 at_50) = Some feu_rouge_event /\
  (let v' :=
     speed (vehicle_data
              (fst (_apply_event_effects (with_event feu_rouge_event 15 at_50)
                      ([] : Replay)))) in
   (name feu_rouge_event = feu_rouge ->
    v' = Qmax 0 (speed (vehicle_data (with_event feu_rouge_event 15 at_50)) - 5)) /\
   (name feu_rouge_event = peage ->
    v' = Qmax 0 (speed (vehicle_data (with_event feu_rouge_event 15 at_50)) - 10)) /\
   5 < 10).
Proof.
  split; [reflexivity|].
  apply (red_light_and_toll_decrements
           (with_event feu_rouge_event 15 at_50) ([] : Replay) feu_rouge_event).
  reflexivity.
Defined.

(** ** C2: a run from the initial state *)

Lemma distance_and_battery_monotone_witness :
  Forall (fun dt => 0 <= dt) (elapsed_times 1000 clock_morning) /\
  battery_ok (vehicle_data init) /\
  monotone_from (vehicle_data init)
    (snd (fst (replay_loop 1000 clock_morning init quiet_run))).
Proof.
  assert (Hdts : Forall (fun dt => 0 <= dt) (elapsed_times 1000 clock_morning)).
  { repeat constructor; vm_compute; discriminate. }
  assert (Hok : battery_ok (vehicle_data init)).
  { repeat split; vm_compute; discriminate. }
  split; [exact Hdts|]. split; [exact Hok|].
  apply (distance_and_battery_monotone sin_atan_flat 1000 clock_morning init
           quiet_run Hdts Hok).
Defined.

(** ** C4 and C5: an event on its last tick *)


Lemma active_event_suppresses_draws_witness :
  current_event rain_ending = Some pluie_event /\
  (_handle_random_events rain_ending active_tick = (rain_ending, active_tick) /\
   (let s' := fst (fst (replay_iteration 0.2 "2026-01-01T08:00:00.200000"
                          rain_ending active_tick)) in
    current_event s' = Some pluie_event \/ current_event s' = None)).
Proof.
  split; [reflexivity|].
  apply (active_event_suppresses_draws sin_atan_flat 0.2
           "2026-01-01T08:00:00.200000" rain_ending active_tick pluie_event).
  reflexivity.
Defined.

(** * Further properties

    The remaining fields of the tick, the event lifecycle over runs, the
    lifecycle commands, the subscriber list and the pedal-driven engine. *)

(** ** The tick *)

Section MoreProperties.

Context {G : Type} {rng : NumpyRandom G}.
Variable sin_atan : Q -> Q.

Ltac draw :=
  match goal with
  | |- context [np_random ?g] => destruct (np_random g) as [? ?]
  | |- context [np_uniform ?a ?b ?g] => destruct (np_uniform a b g) as [? ?]
  | |- context [np_normal ?a ?b ?g] => destruct (np_normal a b g) as [? ?]
  | |- context [np_choice_index ?n ?g] => destruct (np_choice_index n g) as [? ?]
  end.

Ltac run := unfold bind, ret; cbn [fst snd].

Lemma loop_iteration_shape_more (dt : Q) (now : string) (s : Simulator)
    (g : G) :
  let s' := fst (fst (loop_iteration sin_atan dt now s g)) in
  tick_frame_more (tick_physics sin_atan dt s g) (vehicle_data s') /\
  is_running s' = is_running (fst (events_stage s g)) /\
  update_interval s' = update_interval (fst (events_stage s g)) /\
  event_probability s' = event_probability (fst (events_stage s g)).
Proof.
  cbv zeta. rewrite loop_iteration_state.
  destruct (update_vehicle_state_data sin_atan dt s g) as [p ->].
  destruct (calculate_energy_consumption_data
              (set_vehicle_data
                 (set_tire_pressure p (tick_physics sin_atan dt s g))
                 (fst (events_stage s g)))) as [c ->].
  generalize (fst (events_stage s g)) (tick_physics sin_atan dt s g).
  intros s1 d. unfold tick_frame_more. cbn. repeat split.
Qed.

Lemma update_thermal_motor_load (mp : ModeParams) (d : VehicleData) :
  0 <= motor_load (update_thermal mp d) /\
  motor_load (update_thermal mp d) <= 100.
Proof.
  unfold update_thermal. cbn [motor_load set_motor_load].
  now apply clamp_range'.
Qed.

(** After every tick the motor load lies between 0 and 100. *)
Lemma loop_iteration_motor_load (dt : Q) (now : string) (s : Simulator)
    (g : G) :
  let s' := fst (fst (loop_iteration sin_atan dt now s g)) in
  0 <= motor_load (vehicle_data s') /\ motor_load (vehicle_data s') <= 100.
Proof.
  cbv zeta.
  destruct (loop_iteration_shape sin_atan dt now s g)
    as ((_ & _ & _ & _ & _ & -> & _) & _).
  apply update_thermal_motor_load.
Qed.

(** *** Fields the event steps never write *)

Lemma handle_random_events_data (s : Simulator) (g : G) :
  vehicle_data (fst (_handle_random_events s g)) = vehicle_data s.
Proof.
  unfold _handle_random_events.
  destruct (current_event s); run; [reflexivity|].
  draw. destruct (Qltb _ _); [|reflexivity].
  unfold np_choice. run. draw. reflexivity.
Qed.

Lemma event_effect_blind {A : Type} (f : VehicleData -> A) (e : EventName)
    (s : Simulator) (g : G) :
  event_blind f ->
  f (vehicle_data (fst (event_effect e s g))) = f (vehicle_data s).
Proof.
  intros (Hs & Hc & He & Hw & Hg).
  destruct e; unfold event_effect; run; try draw;
    cbn [fst vehicle_data on_data set_vehicle_data];
    rewrite ?He, ?Hs, ?Hc, ?Hw, ?Hg; reflexivity.
Qed.

Lemma event_reset_blind {A : Type} (f : VehicleData -> A) (e : EventName)
    (s : Simulator) (g : G) :
  event_blind f ->
  f (vehicle_data (fst (event_reset e s g))) = f (vehicle_data s).
Proof.
  intros (Hs & Hc & He & Hw & Hg).
  destruct e; unfold event_reset; run; try draw;
    cbn [fst vehicle_data on_data set_vehicle_data];
    rewrite ?He, ?Hs, ?Hc, ?Hw, ?Hg; reflexivity.
Qed.

Lemma apply_event_effects_blind {A : Type} (f : VehicleData -> A)
    (s : Simulator) (g : G) :
  event_blind f ->
  f (vehicle_data (fst (_apply_event_effects s g))) = f (vehicle_data s).
Proof.
  intros Hf. unfold _apply_event_effects.
  destruct (current_event s) as [ev|]; run; [|reflexivity].
  pose proof (event_effect_blind f (name ev) s g Hf) as H1.
  destruct (event_effect (name ev) s g) as [s1 g1]. cbn [fst] in H1.
  destruct (_ <=? _)%Z.
  - pose proof (event_reset_blind f (name ev)
                  (set_event_duration (event_duration s1 - 1) s1) g1 Hf) as H2.
    destruct (event_reset _ _ g1) as [s2 g2]. cbn [fst] in H2 |- *.
    cbn [vehicle_data set_current_event].
    rewrite H2. exact H1.
  - exact H1.
Qed.

Lemma events_stage_blind {A : Type} (f : VehicleData -> A) (s : Simulator)
    (g : G) :
  event_blind f ->
  f (vehicle_data (fst (events_stage s g))) = f (vehicle_data s).
Proof.
  intros Hf. unfold events_stage, bind.
  pose proof (handle_random_events_data s g) as Hh.
  destruct (_handle_random_events s g) as [s1 g1]. cbn [fst] in Hh.
  destruct (current_event s1).
  - rewrite (apply_event_effects_blind f s1 g1 Hf). now rewrite Hh.
  - cbn [ret fst]. now rewrite Hh.
Qed.

Lemma event_blind_tire_pressure : event_blind tire_pressure.
Proof. repeat split. Qed.

Lemma event_blind_battery_capacity : event_blind battery_capacity.
Proof. repeat split. Qed.

Lemma event_blind_vehicle_weight : event_blind vehicle_weight.
Proof. repeat split. Qed.

Lemma event_blind_simulation_mode : event_blind simulation_mode.
Proof. repeat split. Qed.

(** *** Power and autonomy *)

Lemma update_energy_autonomy_remaining (mp : ModeParams) (dt : Q)
    (d : VehicleData) :
  let d' := update_energy sin_atan mp dt d in
  autonomy_remaining d'
  = (battery_level d' / 100 * battery_capacity d)
    / (conso_base mp * (1 + 0.1 * (speed d / vitesse_moyenne mp - 1))) * 100.
Proof.
  unfold update_energy. cbv zeta.
  cbn [speed set_instant_consumption].
  destruct (Qltb 5 (speed d)); reflexivity.
Qed.

Lemma update_energy_battery_nonneg (mp : ModeParams) (dt : Q)
    (d : VehicleData) :
  0 <= battery_level (update_energy sin_atan mp dt d).
Proof.
  rewrite (update_energy_battery_level sin_atan mp dt d). apply Q.le_max_l.
Qed.

Lemma update_thermal_keeps_more (mp : ModeParams) (d : VehicleData) :
  instant_consumption (update_thermal mp d) = instant_consumption d /\
  autonomy_remaining (update_thermal mp d) = autonomy_remaining d /\
  tire_pressure (update_thermal mp d) = tire_pressure d /\
  simulation_mode (update_thermal mp d) = simulation_mode d /\
  vehicle_weight (update_thermal mp d) = vehicle_weight d.
Proof. repeat split. Qed.

Lemma update_energy_keeps_more (mp : ModeParams) (dt : Q) (d : VehicleData) :
  let d' := update_energy sin_atan mp dt d in
  tire_pressure d' = tire_pressure d /\
  simulation_mode d' = simulation_mode d /\
  vehicle_weight d' = vehicle_weight d.
Proof.
  unfold update_energy. cbv zeta.
  cbn [speed set_instant_consumption].
  destruct (Qltb 5 (speed d)); repeat split.
Qed.

Lemma update_kinematics_keeps_more (mp : ModeParams) (dt noise : Q)
    (d : VehicleData) :
  let d' := update_kinematics mp dt noise d in
  tire_pressure d' = tire_pressure d /\
  simulation_mode d' = simulation_mode d /\
  vehicle_weight d' = vehicle_weight d.
Proof. repeat split. Qed.

(** After every tick of a simulator with a positive battery capacity, the
    instantaneous power and the remaining autonomy are non-negative, and
    the autonomy is 0 once the battery is empty. *)
Lemma loop_iteration_power_autonomy (dt : Q) (now : string)
    (s : Simulator) (g : G) :
  0 < battery_capacity (vehicle_data s) ->
  let d' := vehicle_data (fst (fst (loop_iteration sin_atan dt now s g))) in
  0 <= instant_consumption d' /\ 0 <= autonomy_remaining d' /\
  (battery_level d' == 0 -> autonomy_remaining d' == 0).
Proof.
  intros Hcap. cbv zeta.
  destruct (loop_iteration_shape_more dt now s g) as ((-> & -> & _) & _).
  destruct (loop_iteration_shape sin_atan dt now s g)
    as ((_ & _ & _ & -> & _) & _).
  unfold tick_physics.
  set (mp := MODE_PARAMS (current_mode s)).
  set (d2 := update_kinematics mp dt (tick_noise s g)
               (vehicle_data (fst (events_stage s g)))).
  destruct (update_thermal_keeps_more mp (update_energy sin_atan mp dt d2))
    as (-> & -> & _).
  destruct (update_thermal_keeps mp (update_energy sin_atan mp dt d2))
    as (_ & -> & _).
  rewrite (update_energy_autonomy_remaining mp dt d2).
  pose proof (update_energy_battery_nonneg mp dt d2) as Hb.
  assert (Hcap2 : 0 < battery_capacity d2).
  { unfold d2.
    destruct (update_kinematics_keeps mp dt (tick_noise s g)
                (vehicle_data (fst (events_stage s g))))
      as (_ & _ & _ & -> & _).
    rewrite (events_stage_blind battery_capacity s g
               event_blind_battery_capacity).
    exact Hcap. }
  assert (Hv : 0 <= speed d2).
  { unfold d2. apply update_kinematics_speed.
    destruct (mode_params_positive (current_mode s)) as [H _].
    now apply Qlt_le_weak. }
  destruct (update_energy_divisors (current_mode s) d2 Hv Hcap2)
    as (_ & _ & Havg).
  fold mp in Havg.
  set (avg := conso_base mp * _) in *.
  set (b := battery_level (update_energy sin_atan mp dt d2)) in *.
  split; [apply update_energy_instant_consumption|].
  split.
  - assert (H1 : 0 <= b / 100 * battery_capacity d2).
    { apply Qmult_le_0_compat; [|now apply Qlt_le_weak].
      apply Qle_shift_div_l; [reflexivity | lra]. }
    assert (H2 : 0 <= b / 100 * battery_capacity d2 / avg).
    { apply Qle_shift_div_l; [exact Havg | lra]. }
    lra.
  - intros Hz. rewrite Hz. unfold Qdiv. ring.
Qed.

(** *** Tire pressure *)

Lemma update_tire_pressure_range (mp : ModeParams) (dt : Q)
    (d : VehicleData) (g : G) :
  0 <= dt -> 1.5 <= tire_pressure d ->
  let d' := fst (update_tire_pressure mp dt d g) in
  1.5 <= tire_pressure d' /\ tire_pressure d' <= tire_pressure d.
Proof.
  intros Hdt Hp. cbv zeta. unfold update_tire_pressure. run.
  destruct (np_random g) as [u g1].
  destruct (Qltb u _); [|cbn [fst]; split; [exact Hp | apply Qle_refl]].
  destruct (np_random g1) as [v g2].
  destruct (Qltb v 0.1).
  - pose proof (np_uniform_range 0 0.05 g2) as Hu.
    destruct (np_uniform 0 0.05 g2) as [extra g3]. cbn [fst] in Hu |- *.
    cbn [tire_pressure set_tire_pressure].
    assert (0 <= extra) by (apply Hu; discriminate).
    split; [apply Q.le_max_l | apply Q.max_lub; lra].
  - cbn [fst tire_pressure set_tire_pressure].
    split; [apply Q.le_max_l | apply Q.max_lub; lra].
Qed.

Lemma tick_physics_keeps_more (dt : Q) (s : Simulator) (g : G) :
  tire_pressure (tick_physics sin_atan dt s g)
  = tire_pressure (vehicle_data s) /\
  simulation_mode (tick_physics sin_atan dt s g)
  = simulation_mode (vehicle_data s) /\
  vehicle_weight (tick_physics sin_atan dt s g)
  = vehicle_weight (vehicle_data s).
Proof.
  unfold tick_physics.
  set (mp := MODE_PARAMS (current_mode s)).
  set (d1 := vehicle_data (fst (events_stage s g))).
  set (d2 := update_kinematics mp dt (tick_noise s g) d1).
  destruct (update_thermal_keeps_more mp (update_energy sin_atan mp dt d2))
    as (_ & _ & -> & -> & ->).
  destruct (update_energy_keeps_more mp dt d2) as (-> & -> & ->).
  unfold d2.
  destruct (update_kinematics_keeps_more mp dt (tick_noise s g) d1)
    as (-> & -> & ->).
  unfold d1.
  rewrite (events_stage_blind tire_pressure s g event_blind_tire_pressure).
  rewrite (events_stage_blind simulation_mode s g event_blind_simulation_mode).
  rewrite (events_stage_blind vehicle_weight s g event_blind_vehicle_weight).
  repeat split.
Qed.

(** Over a tick with a non-negative elapsed time, a tire pressure of at
    least 1.5 bar never rises and never falls below 1.5 bar. *)
Lemma loop_iteration_tire_pressure (dt : Q) (now : string)
    (s : Simulator) (g : G) :
  0 <= dt -> 1.5 <= tire_pressure (vehicle_data s) ->
  let d' := vehicle_data (fst (fst (loop_iteration sin_atan dt now s g))) in
  1.5 <= tire_pressure d' /\ tire_pressure d' <= tire_pressure (vehicle_data s).
Proof.
  intros Hdt Hp. cbv zeta. rewrite loop_iteration_state.
  pose proof (update_vehicle_state_unfold sin_atan dt s g) as Hu.
  cbv zeta in Hu. rewrite Hu. clear Hu.
  fold (tick_noise s g). fold (tick_physics sin_atan dt s g).
  destruct (tick_physics_keeps_more dt s g) as (Ht & _).
  rewrite <- Ht in Hp |- *.
  pose proof (update_tire_pressure_range (MODE_PARAMS (current_mode s)) dt
                (tick_physics sin_atan dt s g)
                (snd (np_normal 0
                        (variation_vitesse (MODE_PARAMS (current_mode s)) / 10)
                        (snd (events_stage s g)))) Hdt Hp) as Hr.
  cbv zeta in Hr. revert Hr.
  generalize (fst (update_tire_pressure (MODE_PARAMS (current_mode s)) dt
                     (tick_physics sin_atan dt s g)
                     (snd (np_normal 0
                        (variation_vitesse (MODE_PARAMS (current_mode s)) / 10)
                        (snd (events_stage s g)))))).
  generalize (fst (events_stage s g)) (tick_physics sin_atan dt s g).
  intros s1 d d' Hr. exact Hr.
Qed.

(** *** Drawing an event *)

Lemma events_for_facts (m : Mode) (ev : Event) :
  In ev (events_for m) ->
  (name ev = feu_rouge -> m = MODE_URBAIN) /\
  (name ev = peage -> m = MODE_AUTOROUTE) /\
  (10 <= duration ev)%Z /\ (duration ev <= 70)%Z.
Proof.
  destruct m; cbn [events_for base_events app In]; intros Hin;
    repeat (destruct Hin as [<-|Hin]; [cbn; repeat split; (discriminate || lia)|]);
    contradiction.
Qed.

Lemma events_for_nonempty (m : Mode) : (0 < length (events_for m))%nat.
Proof. destruct m; cbn; lia. Qed.

Lemma handle_random_events_idle (s : Simulator) (g : G) :
  current_event s = None ->
  fst (_handle_random_events s g) = s \/
  exists ev, In ev (events_for (current_mode s)) /\
             fst (_handle_random_events s g)
             = set_event_duration (duration ev) (set_current_event (Some ev) s).
Proof.
  intros Hidle. unfold _handle_random_events. rewrite Hidle. run.
  destruct (np_random g) as [u g1].
  destruct (Qltb u _); [|now left].
  right. unfold np_choice. run.
  pose proof (np_choice_index_range (length (events_for (current_mode s))) g1
                (events_for_nonempty (current_mode s))) as Hi.
  destruct (np_choice_index _ g1) as [i g2]. cbn [fst] in Hi |- *.
  eexists. split; [|reflexivity].
  now apply nth_In.
Qed.

(** X5. With no event active, [_handle_random_events] either leaves the
    simulator as it is or starts one event of the current mode's candidate
    list with its full duration on the counter: a red light only in urban
    mode, a toll booth only in highway mode, and always for 10 to 70
    ticks. *)
Theorem new_event_from_mode_list (s : Simulator) (g : G) :
  current_event s = None ->
  let s' := fst (_handle_random_events s g) in
  s' = s \/
  exists ev,
    current_event s' = Some ev /\ event_duration s' = duration ev /\
    vehicle_data s' = vehicle_data s /\ current_mode s' = current_mode s /\
    In ev (events_for (current_mode s)) /\
    (name ev = feu_rouge -> current_mode s = MODE_URBAIN) /\
    (name ev = peage -> current_mode s = MODE_AUTOROUTE) /\
    (10 <= duration ev)%Z /\ (duration ev <= 70)%Z.
Proof.
  intros Hidle. cbv zeta.
  destruct (handle_random_events_idle s g Hidle) as [->|(ev & Hin & ->)];
    [now left|].
  right. exists ev.
  destruct (events_for_facts (current_mode s) ev Hin) as (H1 & H2 & H3 & H4).
  repeat split; assumption.
Qed.

(** *** The environment fields follow the event slot *)

Lemma event_effect_environment (e : EventName) (s : Simulator) (g : G) :
  calm (vehicle_data s) \/ environment_under e (vehicle_data s) ->
  environment_under e (vehicle_data (fst (event_effect e s g))).
Proof.
  pose proof (np_uniform_range 8 15 g) as Hw.
  pose proof (np_uniform_range 3 8 g) as Hg.
  unfold calm.
  destruct e; unfold event_effect, environment_under, calm; run;
    intros [H|H]; decompose [and] H; clear H;
    try (match goal with
         | |- context [np_uniform ?a ?b g] =>
             destruct (np_uniform a b g) as [u g1]
         end);
    cbn in *; repeat split; try assumption;
    try (apply Hw; discriminate); try (apply Hg; discriminate).
Qed.

Lemma event_reset_environment (e : EventName) (s : Simulator) (g : G) :
  environment_under e (vehicle_data s) ->
  calm (vehicle_data (fst (event_reset e s g))).
Proof.
  pose proof (np_uniform_range (-2) 2 g) as Hu.
  destruct e; unfold event_reset, environment_under, calm; run;
    intros H; decompose [and] H; clear H;
    try (match goal with
         | |- context [np_uniform ?a ?b g] =>
             destruct (np_uniform a b g) as [u g1]
         end);
    cbn in *; repeat split; try assumption;
    apply Hu; discriminate.
Qed.

(** One application of the active event, from a slot that is either in
    order or freshly filled on a calm environment. *)
Lemma apply_event_effects_slot_ok (s : Simulator) (g : G) (ev : Event) :
  current_event s = Some ev ->
  (1 <= event_duration s)%Z -> (event_duration s <= duration ev)%Z ->
  (duration ev <= 70)%Z ->
  calm (vehicle_data s) \/ environment_under (name ev) (vehicle_data s) ->
  slot_ok (fst (_apply_event_effects s g)).
Proof.
  intros Hev Hlo Hhi H70 Henv.
  destruct (apply_event_effects_slot s g ev Hev) as (Hd & Hend & Hgo).
  revert Hd Hend Hgo.
  unfold _apply_event_effects. rewrite Hev. run.
  pose proof (event_effect_environment (name ev) s g Henv) as He.
  pose proof (event_effect_frame (name ev) s g) as (_ & _ & Hd1).
  destruct (event_effect (name ev) s g) as [s1 g1]. cbn [fst] in He, Hd1.
  cbn [event_duration set_event_duration]. rewrite Hd1.
  destruct (Z.leb_spec (event_duration s - 1) 0) as [Hle|Hgt].
  - pose proof (event_reset_environment (name ev)
                  (set_event_duration (event_duration s - 1) s1) g1 He) as Hr.
    destruct (event_reset _ _ g1) as [s2 g2]. cbn [fst] in Hr |- *.
    intros _ _ _. unfold slot_ok.
    cbn [current_event set_current_event vehicle_data]. exact Hr.
  - cbn [fst]. intros Hd _ Hgo. unfold slot_ok.
    rewrite Hgo by lia. rewrite Hd.
    cbn [vehicle_data set_event_duration].
    repeat split; try lia. exact He.
Qed.

Lemma events_stage_slot_ok (s : Simulator) (g : G) :
  slot_ok s -> slot_ok (fst (events_stage s g)).
Proof.
  intros Hok. unfold events_stage, bind.
  destruct (current_event s) as [ev|] eqn:Hev.
  - rewrite (handle_random_events_active s g ev Hev). rewrite Hev.
    unfold slot_ok in Hok. rewrite Hev in Hok.
    destruct Hok as (H1 & H2 & H3 & H4).
    apply (apply_event_effects_slot_ok s g ev Hev); try lia. now right.
  - unfold slot_ok in Hok. rewrite Hev in Hok.
    destruct (handle_random_events_idle s g Hev) as [Hs|(ev & Hin & Hs)];
      destruct (_handle_random_events s g) as [s1 g1]; cbn [fst] in Hs;
      subst s1.
    + rewrite Hev. cbn [ret fst]. unfold slot_ok. now rewrite Hev.
    + cbn [current_event set_event_duration set_current_event].
      destruct (events_for_facts (current_mode s) ev Hin)
        as (_ & _ & H10 & H70).
      apply (apply_event_effects_slot_ok _ g1 ev);
        cbn [current_event event_duration vehicle_data set_event_duration
             set_current_event];
        try reflexivity; try lia.
      now left.
Qed.

Lemma loop_iteration_slot_ok (dt : Q) (now : string) (s : Simulator) (g : G) :
  slot_ok s -> slot_ok (fst (fst (loop_iteration sin_atan dt now s g))).
Proof.
  intros Hok. apply (events_stage_slot_ok s g) in Hok.
  destruct (loop_iteration_shape sin_atan dt now s g)
    as ((_ & _ & _ & _ & _ & _ & Hg & Hw & Hc & _) & _ & He & Hd).
  destruct (tick_physics_environment sin_atan dt s g) as (Hc1 & Hw1 & Hg1).
  rewrite Hc1 in Hc. rewrite Hw1 in Hw. rewrite Hg1 in Hg.
  revert Hok. unfold slot_ok. rewrite He, Hd.
  destruct (current_event (fst (events_stage s g))) as [ev|].
  - intros (H1 & H2 & H3 & H4). repeat split; try assumption.
    revert H4. unfold environment_under, calm. rewrite Hc, Hw, Hg.
    exact (fun H => H).
  - unfold calm. rewrite Hc, Hw, Hg. exact (fun H => H).
Qed.

(** *** How long an event lasts *)

Lemma loop_iteration_slot (dt : Q) (now : string) (s : Simulator) (g : G)
    (ev : Event) :
  current_event s = Some ev ->
  let s' := fst (fst (loop_iteration sin_atan dt now s g)) in
  event_duration s' = (event_duration s - 1)%Z /\
  ((event_duration s <= 1)%Z -> current_event s' = None) /\
  ((1 < event_duration s)%Z -> current_event s' = Some ev).
Proof.
  intros Hev. cbv zeta.
  destruct (loop_iteration_shape sin_atan dt now s g) as (_ & _ & -> & ->).
  rewrite (events_stage_active s g ev Hev).
  now apply apply_event_effects_slot.
Qed.

(** X6. An event with [n >= 1] ticks on its counter stays in the slot, with
    the counter going down by one per tick, through the next [n - 1] ticks
    of the loop, and the slot is empty after the [n]-th. *)
Theorem event_lasts_its_counter (last_update : Q) (clock : list (Q * string))
    (s : Simulator) (g : G) (ev : Event) :
  current_event s = Some ev -> (1 <= event_duration s)%Z ->
  let s' := fst (fst (_simulation_loop sin_atan last_update clock s g)) in
  ((Z.of_nat (length clock) < event_duration s)%Z ->
   current_event s' = Some ev /\
   event_duration s' = (event_duration s - Z.of_nat (length clock))%Z) /\
  (Z.of_nat (length clock) = event_duration s -> current_event s' = None).
Proof.
  revert last_update s g.
  induction clock as [|[t now] clock IH]; intros last_update s g Hev Hn;
    cbv zeta.
  - cbn [_simulation_loop ret fst length]. split.
    + intros _. split; [exact Hev | lia].
    + intros H0. change (Z.of_nat 0) with 0%Z in H0. lia.
  - rewrite simulation_loop_cons. cbn [fst snd].
    destruct (loop_iteration_slot (t - last_update) now s g ev Hev)
      as (Hd & Hend & Hgo).
    set (s1 := fst (fst (loop_iteration sin_atan (t - last_update) now s g)))
      in *.
    set (g1 := snd (loop_iteration sin_atan (t - last_update) now s g)).
    cbn [length]. rewrite Nat2Z.inj_succ.
    destruct (Z.le_gt_cases (event_duration s) 1) as [Hone|Hmore].
    + split; [intros Hlt; lia|].
      intros Heq. destruct clock as [|c clock]; [|cbn [length] in Heq; lia].
      cbn [_simulation_loop ret fst]. now apply Hend.
    + specialize (Hgo ltac:(lia)).
      specialize (IH t s1 g1 Hgo ltac:(lia)). cbv zeta in IH.
      destruct IH as [IHlt IHeq]. split.
      * intros Hlt. destruct (IHlt ltac:(lia)) as [-> ->]. split; [reflexivity|lia].
      * intros Heq. apply IHeq. lia.
Qed.

(** *** The consumption figure carried into a tick *)

Lemma update_vehicle_state_tick_body (dt : Q) (s : Simulator) (g : G) :
  _update_vehicle_state sin_atan dt s g
  = tick_body sin_atan (MODE_PARAMS (current_mode s)) dt (events_stage s g).
Proof.
  unfold _update_vehicle_state, events_stage, tick_body, bind, ret.
  destruct (_handle_random_events s g) as [s1 g1].
  destruct (current_event s1).
  - destruct (_apply_event_effects s1 g1) as [s2 g2]. cbn [fst snd].
    destruct (np_normal _ _ g2) as [noise g3].
    now destruct (update_tire_pressure _ _ _ g3).
  - cbn [fst snd]. destruct (np_normal _ _ g1) as [noise g3].
    now destruct (update_tire_pressure _ _ _ g3).
Qed.

Lemma handle_random_events_with_consumption (c : Q) (s : Simulator) (g : G) :
  _handle_random_events (with_consumption c s) g
  = (with_consumption c (fst (_handle_random_events s g)),
     snd (_handle_random_events s g)).
Proof.
  unfold _handle_random_events.
  cbn [with_consumption on_data current_event set_vehicle_data
       event_probability current_mode].
  destruct (current_event s); run; [reflexivity|].
  destruct (np_random g) as [u g1]. destruct (Qltb u _); [|reflexivity].
  unfold np_choice. run. now destruct (np_choice_index _ g1).
Qed.

Lemma event_effect_with_consumption (e : EventName) (c : Q) (s : Simulator)
    (g : G) :
  exists c',
    event_effect e (with_consumption c s) g
    = (with_consumption c' (fst (event_effect e s g)),
       snd (event_effect e s g)).
Proof.
  destruct e; unfold event_effect; run; try draw; eexists; reflexivity.
Qed.

Lemma event_reset_with_consumption (e : EventName) (c : Q) (s : Simulator)
    (g : G) :
  event_reset e (with_consumption c s) g
  = (with_consumption c (fst (event_reset e s g)), snd (event_reset e s g)).
Proof.
  destruct e; unfold event_reset; run; try draw; reflexivity.
Qed.

Lemma apply_event_effects_with_consumption (c : Q) (s : Simulator) (g : G) :
  exists c',
    _apply_event_effects (with_consumption c s) g
    = (with_consumption c' (fst (_apply_event_effects s g)),
       snd (_apply_event_effects s g)).
Proof.
  unfold _apply_event_effects.
  change (current_event (with_consumption c s)) with (current_event s).
  destruct (current_event s) as [ev|]; run; [|exists c; reflexivity].
  destruct (event_effect_with_consumption (name ev) c s g) as [c' ->].
  destruct (event_effect (name ev) s g) as [s1 g1]. cbn [fst snd].
  exists c'.
  change (event_duration (with_consumption c' s1)) with (event_duration s1).
  change (event_duration
            (set_event_duration (event_duration s1 - 1)
               (with_consumption c' s1)))
    with (event_duration s1 - 1)%Z.
  change (event_duration
            (set_event_duration (event_duration s1 - 1) s1))
    with (event_duration s1 - 1)%Z.
  destruct (_ <=? _)%Z; [|reflexivity].
  change (set_event_duration (event_duration s1 - 1) (with_consumption c' s1))
    with (with_consumption c' (set_event_duration (event_duration s1 - 1) s1)).
  rewrite event_reset_with_consumption.
  now destruct (event_reset _ _ g1).
Qed.

Lemma events_stage_with_consumption (c : Q) (s : Simulator) (g : G) :
  exists c',
    events_stage (with_consumption c s) g
    = (with_consumption c' (fst (events_stage s g)), snd (events_stage s g)).
Proof.
  unfold events_stage, bind.
  rewrite handle_random_events_with_consumption.
  destruct (_handle_random_events s g) as [s1 g1]. cbn [fst snd].
  change (current_event (with_consumption c s1)) with (current_event s1).
  destruct (current_event s1).
  - apply apply_event_effects_with_consumption.
  - exists c. reflexivity.
Qed.

Lemma update_kinematics_with_consumption (mp : ModeParams) (dt noise c : Q)
    (d : VehicleData) :
  update_kinematics mp dt noise (set_energy_consumption c d)
  = set_energy_consumption c (update_kinematics mp dt noise d).
Proof. reflexivity. Qed.

Lemma update_energy_with_consumption (mp : ModeParams) (dt c : Q)
    (d : VehicleData) :
  update_energy sin_atan mp dt (set_energy_consumption c d)
  = update_energy sin_atan mp dt d.
Proof.
  unfold update_energy. cbv zeta.
  cbn [speed set_instant_consumption set_energy_consumption].
  destruct (Qltb 5 (speed d)); reflexivity.
Qed.

Lemma tick_body_with_consumption (mp : ModeParams) (dt c : Q)
    (s : Simulator) (g : G) :
  tick_body sin_atan mp dt (with_consumption c s, g) = tick_body sin_atan mp dt (s, g).
Proof.
  unfold tick_body. cbn [fst snd].
  destruct (np_normal _ _ g) as [noise g2].
  change (vehicle_data (with_consumption c s))
    with (set_energy_consumption c (vehicle_data s)).
  rewrite update_kinematics_with_consumption, update_energy_with_consumption.
  now destruct (update_tire_pressure _ _ _ g2).
Qed.

(** X7. A tick does not read the consumption figure it starts with: the
    state, the snapshot and the generator after one loop iteration are the
    same whatever [energy_consumption] held before.  In particular the
    factor 1.1 that rain applies to the figure at the start of a tick never
    reaches a snapshot. *)
Theorem tick_ignores_previous_consumption (dt : Q) (now : string) (c : Q)
    (s : Simulator) (g : G) :
  loop_iteration sin_atan dt now (with_consumption c s) g
  = loop_iteration sin_atan dt now s g.
Proof.
  unfold loop_iteration, bind, ret.
  rewrite !update_vehicle_state_tick_body.
  change (current_mode (with_consumption c s)) with (current_mode s).
  destruct (events_stage_with_consumption c s g) as [c' ->].
  rewrite tick_body_with_consumption.
  now rewrite <- surjective_pairing.
Qed.

(** *** Reachable states *)

Lemma init_well_formed : well_formed init.
Proof.
  constructor; cbn; try reflexivity; try (split; discriminate);
    try discriminate.
  unfold slot_ok, calm. cbn. repeat split; discriminate.
Qed.

Lemma set_is_running_well_formed (b : bool) (s : Simulator) :
  well_formed s -> well_formed (set_is_running b s).
Proof. intros []. constructor; assumption. Qed.

Lemma switch_mode_well_formed (m : Mode) (s : Simulator) :
  well_formed s ->
  well_formed (on_data (set_simulation_mode m) (set_current_mode m s)).
Proof. intros []. constructor; try assumption. reflexivity. Qed.

Lemma start_well_formed (mode : option string) (s : Simulator) :
  well_formed s -> well_formed (start mode s).
Proof.
  intros Hwf. unfold start.
  assert (Hsw : well_formed
            match mode with
            | Some key =>
                match mode_of_key key with
                | Some m => on_data (set_simulation_mode m) (set_current_mode m s)
                | None => s
                end
            | None => s
            end).
  { destruct mode as [key|]; [|exact Hwf].
    destruct (mode_of_key key); [now apply switch_mode_well_formed | exact Hwf]. }
  revert Hsw. generalize (match mode with
            | Some key =>
                match mode_of_key key with
                | Some m => on_data (set_simulation_mode m) (set_current_mode m s)
                | None => s
                end
            | None => s
            end).
  intros s1 H1. destruct (is_running s1);
    [exact H1 | now apply set_is_running_well_formed].
Qed.

Lemma change_mode_well_formed (new_mode : string) (s : Simulator) :
  well_formed s -> well_formed (fst (change_mode new_mode s)).
Proof.
  intros Hwf. unfold change_mode.
  destruct (mode_of_key new_mode);
    [now apply switch_mode_well_formed | exact Hwf].
Qed.

Lemma vitesse_max_at_most_150 (m : Mode) : vitesse_max (MODE_PARAMS m) <= 150.
Proof. destruct m; discriminate. Qed.

Lemma tick_physics_battery_capacity (dt : Q) (s : Simulator) (g : G) :
  battery_capacity (tick_physics sin_atan dt s g)
  = battery_capacity (vehicle_data s).
Proof.
  unfold tick_physics.
  set (mp := MODE_PARAMS (current_mode s)).
  set (d1 := vehicle_data (fst (events_stage s g))).
  set (d2 := update_kinematics mp dt (tick_noise s g) d1).
  destruct (update_thermal_keeps mp (update_energy sin_atan mp dt d2))
    as (_ & _ & ->).
  destruct (update_energy_keeps sin_atan mp dt d2)
    as (_ & _ & _ & _ & _ & -> & _).
  unfold d2.
  destruct (update_kinematics_keeps mp dt (tick_noise s g) d1)
    as (_ & _ & _ & -> & _).
  apply (events_stage_blind battery_capacity s g event_blind_battery_capacity).
Qed.

Lemma loop_iteration_well_formed (dt : Q) (now : string) (s : Simulator)
    (g : G) :
  0 <= dt -> well_formed s ->
  well_formed (fst (fst (loop_iteration sin_atan dt now s g))).
Proof.
  intros Hdt Hwf. destruct Hwf.
  assert (Hcap : 0 < battery_capacity (vehicle_data s))
    by (rewrite wf_capacity0; reflexivity).
  assert (Hok : battery_ok (vehicle_data s))
    by (unfold battery_ok; tauto).
  destruct (loop_iteration_monotone sin_atan dt now s g Hdt Hok)
    as ((Hdist & _ & Hb0 & Hb100) & _).
  destruct (loop_iteration_power_autonomy dt now s g Hcap) as (Hp & Ha & _).
  destruct (loop_iteration_tire_pressure dt now s g Hdt (proj1 wf_tire0))
    as (Ht1 & Ht2).
  pose proof (loop_iteration_motor_load dt now s g) as Hml.
  pose proof (loop_iteration_slot_ok dt now s g wf_slot0) as Hslot.
  destruct (loop_iteration_shape sin_atan dt now s g)
    as ((Hsp & _ & Htemp & _ & Hc & _) & Hmode & _).
  destruct (loop_iteration_shape_more dt now s g)
    as ((_ & _ & Hsm & Hw) & _ & _ & Hprob).
  destruct (tick_physics_keeps_more dt s g) as (_ & Hsm1 & Hw1).
  destruct (events_stage_frame s g) as (_ & Hprob1 & _).
  destruct (tick_physics_speed sin_atan dt s g) as (Hv0 & Hvmax).
  pose proof (vitesse_max_at_most_150 (current_mode s)) as H150.
  constructor; try assumption.
  - congruence.
  - rewrite Hc, tick_physics_battery_capacity. exact wf_capacity0.
  - congruence.
  - congruence.
  - now split.
  - rewrite Htemp. apply update_thermal_temperature.
  - split; [exact Ht1 | lra].
  - rewrite Hsp. split; [exact Hv0 | lra].
  - lra.
Qed.

Lemma reachable_well_formed (s : Simulator) : reachable sin_atan s -> well_formed s.
Proof.
  induction 1.
  - apply init_well_formed.
  - now apply start_well_formed.
  - now apply set_is_running_well_formed.
  - now apply change_mode_well_formed.
  - now apply loop_iteration_well_formed.
Qed.

(** X1. In every reachable state the snapshot's [simulation_mode] is the
    active mode, and the vehicle constants are the ones [__init__] set:
    60 kWh of battery capacity, 1800 kg, event probability 0.01. *)
Theorem reachable_mode_and_constants (s : Simulator) :
  reachable sin_atan s ->
  simulation_mode (vehicle_data s) = current_mode s /\
  battery_capacity (vehicle_data s) = 60 /\
  vehicle_weight (vehicle_data s) = 1800 /\
  event_probability s = 0.01.
Proof.
  intros Hr. destruct (reachable_well_formed s Hr). repeat split; assumption.
Qed.

(** X2. In every reachable state the battery level is within [0, 100], the
    motor temperature within [20, 90], the motor load within [0, 100], the
    tire pressure within [1.5, 2.4], the speed within [0, 150], and the
    total distance, the instantaneous power and the remaining autonomy are
    non-negative. *)
Theorem reachable_ranges (s : Simulator) :
  reachable sin_atan s ->
  let d := vehicle_data s in
  (0 <= battery_level d /\ battery_level d <= 100) /\
  (20 <= temperature d /\ temperature d <= 90) /\
  (0 <= motor_load d /\ motor_load d <= 100) /\
  (1.5 <= tire_pressure d /\ tire_pressure d <= 2.4) /\
  (0 <= speed d /\ speed d <= 150) /\
  0 <= total_distance d /\ 0 <= instant_consumption d /\
  0 <= autonomy_remaining d.
Proof.
  intros Hr. destruct (reachable_well_formed s Hr). cbv zeta.
  repeat split; tauto.
Qed.

(** X3. In every reachable state the environment fields follow the event
    slot: the road is wet (1.0) exactly while rain is active and dry (0)
    otherwise, the wind is within [8, 15] while a cross wind is active and
    within [-2, 2] otherwise, and the grade is within [3, 8] while a climb
    is active and within [-2, 2] otherwise. *)
Theorem reachable_environment_follows_event (s : Simulator) :
  reachable sin_atan s ->
  match current_event s with
  | Some ev => environment_under (name ev) (vehicle_data s)
  | None => calm (vehicle_data s)
  end.
Proof.
  intros Hr. destruct (reachable_well_formed s Hr) as [].
  unfold slot_ok in wf_slot0.
  destruct (current_event s); [apply wf_slot0 | exact wf_slot0].
Qed.

(** X4. In every reachable state an active event has at least one tick and
    less than its full duration left on the counter, and no event lasts
    more than 70 ticks. *)
Theorem reachable_event_counter (s : Simulator) (ev : Event) :
  reachable sin_atan s -> current_event s = Some ev ->
  (1 <= event_duration s)%Z /\ (event_duration s < duration ev)%Z /\
  (duration ev <= 70)%Z.
Proof.
  intros Hr Hev. destruct (reachable_well_formed s Hr) as [].
  unfold slot_ok in wf_slot0. rewrite Hev in wf_slot0.
  repeat split; apply wf_slot0.
Qed.

End MoreProperties.

(** ** Lifecycle commands *)

Lemma mode_of_key_inv (key : string) (m : Mode) :
  mode_of_key key = Some m -> key = mode_key m.
Proof.
  unfold mode_of_key.
  destruct (String.eqb_spec key "urbain"); [intros [= <-]; assumption|].
  destruct (String.eqb_spec key "sport"); [intros [= <-]; assumption|].
  destruct (String.eqb_spec key "autoroute"); [intros [= <-]; assumption|].
  destruct (String.eqb_spec key "eco"); [intros [= <-]; assumption|].
  discriminate.
Qed.

(** X8. [change_mode] accepts exactly the four keys of [MODE_PARAMS]: it
    returns [True] if and only if the key is "urbain", "sport", "autoroute"
    or "eco", and then both the active mode and the snapshot's
    [simulation_mode] are the mode the key names, while the event slot and
    the rest of the simulator are untouched. *)
Theorem change_mode_accepts_the_four_keys (new_mode : string) (s : Simulator) :
  (snd (change_mode new_mode s) = true <-> exists m, new_mode = mode_key m) /\
  (forall m, new_mode = mode_key m ->
     let s' := fst (change_mode new_mode s) in
     current_mode s' = m /\ simulation_mode (vehicle_data s') = m /\
     speed (vehicle_data s') = speed (vehicle_data s) /\
     battery_level (vehicle_data s') = battery_level (vehicle_data s) /\
     current_event s' = current_event s /\
     event_duration s' = event_duration s /\
     is_running s' = is_running s).
Proof.
  split.
  - unfold change_mode. split.
    + destruct (mode_of_key new_mode) as [m|] eqn:Hm; [|discriminate].
      intros _. exists m. now apply mode_of_key_inv.
    + intros [m ->]. now rewrite mode_of_key_mode_key.
  - intros m ->. unfold change_mode. rewrite mode_of_key_mode_key.
    repeat split.
Qed.

(** X9. [start] is idempotent: a second [start] with the same argument
    changes nothing, the simulator is running after any [start], and on a
    running simulator [start()] without a mode is the identity.  [stop]
    after [start] leaves the simulator stopped with the mode [start]
    selected. *)
Theorem start_idempotent (mode : option string) (s : Simulator) :
  start mode (start mode s) = start mode s /\
  is_running (start mode s) = true /\
  (is_running s = true -> start None s = s) /\
  is_running (stop (start mode s)) = false /\
  current_mode (stop (start mode s)) = current_mode (start mode s).
Proof.
  assert (Hrun : is_running (start mode s) = true).
  { unfold start. destruct mode as [key|]; [destruct (mode_of_key key)|];
      cbn [is_running on_data set_vehicle_data set_current_mode];
      destruct (is_running s) eqn:E; cbn; try reflexivity; exact E. }
  split; [|split; [exact Hrun|split; [|split; reflexivity]]].
  - destruct s as [run d upd cm ep ce ed].
    unfold start. destruct mode as [key|];
      [destruct (mode_of_key key) eqn:Hk|];
      destruct run; cbn; rewrite ?Hk; reflexivity.
  - intros Hr. unfold start. now rewrite Hr.
Qed.

(** ** Properties of the subscriber list *)

Section Callbacks.

Variable Callback : Type.
Variable callback_eq_dec : forall a b : Callback, {a = b} + {a <> b}.
Lemma on_data_update_spec (callback : Callback) (l : list Callback) :
  (In callback l /\ on_data_update callback_eq_dec callback l = l) \/
  (~ In callback l /\ on_data_update callback_eq_dec callback l = l ++ [callback]).
Proof.
  unfold on_data_update.
  destruct (in_dec callback_eq_dec callback l); [left | right]; now split.
Qed.

Lemma on_data_update_In (callback : Callback) (l : list Callback) :
  In callback (on_data_update callback_eq_dec callback l).
Proof.
  destruct (on_data_update_spec callback l) as [[Hin ->]|[_ ->]];
    [exact Hin|].
  apply in_or_app. right. now left.
Qed.

Lemma on_data_update_NoDup (callback : Callback) (l : list Callback) :
  NoDup l -> NoDup (on_data_update callback_eq_dec callback l).
Proof.
  intros Hnd.
  destruct (on_data_update_spec callback l) as [[_ ->]|[Hnot ->]];
    [exact Hnd|].
  apply NoDup_rev in Hnd. rewrite <- (rev_involutive (l ++ [callback])).
  apply NoDup_rev. rewrite rev_app_distr. cbn [rev app].
  constructor; [|exact Hnd].
  now rewrite <- in_rev.
Qed.

(** X10. Registering a callback twice is the same as registering it once;
    registration keeps the callbacks already registered, in their order,
    at the front of the list, ends with the callback registered, and never
    creates a duplicate. *)
Theorem on_data_update_registers_once (callback : Callback)
    (l : list Callback) :
  on_data_update callback_eq_dec callback (on_data_update callback_eq_dec callback l)
  = on_data_update callback_eq_dec callback l /\
  In callback (on_data_update callback_eq_dec callback l) /\
  (exists tail, on_data_update callback_eq_dec callback l = l ++ tail) /\
  (NoDup l -> NoDup (on_data_update callback_eq_dec callback l)).
Proof.
  split; [|split; [apply on_data_update_In|split;
                   [|apply on_data_update_NoDup]]].
  - destruct (on_data_update_spec callback (on_data_update callback_eq_dec callback l))
      as [[_ ->]|[Hnot _]]; [reflexivity|].
    destruct Hnot. apply on_data_update_In.
  - destruct (on_data_update_spec callback l) as [[_ ->]|[_ ->]].
    + exists []. now rewrite app_nil_r.
    + now exists [callback].
Qed.

End Callbacks.

(** ** Properties of [VehiclePhysicsSimulation] *)

Module VehiclePhysicsSimulationProperties.
Import VehiclePhysicsSimulation.

(** [max] and [min] return one of their arguments, syntactically. *)
Lemma Qmax_left (x y : Q) : y <= x -> Qmax x y = x.
Proof.
  intros Hle. unfold Qmax, GenericMinMax.gmax.
  destruct (x ?= y) eqn:E; try reflexivity.
  rewrite <- Qlt_alt in E. lra.
Qed.

Lemma Qmin_left (x y : Q) : x <= y -> Qmin x y = x.
Proof.
  intros Hle. unfold Qmin, GenericMinMax.gmin.
  destruct (x ?= y) eqn:E; try reflexivity.
  rewrite <- Qgt_alt in E. lra.
Qed.

Lemma np_clip_range (x lo hi : Q) :
  lo <= hi -> lo <= np_clip x lo hi /\ np_clip x lo hi <= hi.
Proof.
  intros Hle. unfold np_clip. split.
  - apply Q.min_glb; [apply Q.le_max_r | exact Hle].
  - apply Q.le_min_r.
Qed.

Lemma np_clip_idempotent (x lo hi : Q) :
  lo <= hi -> np_clip (np_clip x lo hi) lo hi = np_clip x lo hi.
Proof.
  intros Hle. destruct (np_clip_range x lo hi Hle) as [Hlo Hhi].
  unfold np_clip at 1.
  rewrite (Qmax_left _ _ Hlo). now apply Qmin_left.
Qed.

Lemma np_clip_int_idempotent (x : Z) :
  np_clip_int (np_clip_int x (-1) 1) (-1) 1 = np_clip_int x (-1) 1.
Proof. unfold np_clip_int. lia. Qed.

Lemma np_clip_int_gear (x : Z) :
  np_clip_int x (-1) 1 = (-1)%Z \/ np_clip_int x (-1) 1 = 0%Z \/
  np_clip_int x (-1) 1 = 1%Z.
Proof. unfold np_clip_int. lia. Qed.

Section WithNumpy.

Variable norm : Vec3 -> Q.
Variable tan : Q -> Q.
Variable radians_35 : Q.

(** X12. The first [update] of a fresh object, and the first one after
    [cleanup], only records the time: state and distance are unchanged and
    the controls passed are ignored. *)
Theorem first_update_only_arms_the_clock (controls controls' : Controls)
    (current_time : Q) (sim : Simulation) :
  state (update norm tan radians_35 controls current_time (cleanup sim))
  = state sim /\
  total_distance (update norm tan radians_35 controls current_time (cleanup sim))
  = total_distance sim /\
  update norm tan radians_35 controls current_time (cleanup sim)
  = update norm tan radians_35 controls' current_time (cleanup sim) /\
  update norm tan radians_35 controls current_time init
  = {| state := state init; last_update_time := Some current_time;
       total_distance := total_distance init |}.
Proof. repeat split. Qed.

(** X13. [update] acts on the clipped controls: throttle and steering
    outside [-1, 1], brake outside [0, 1] and gear outside {-1, 0, 1} have
    the effect of the nearest bound, and a missing key the effect of 0. *)
Theorem update_clips_controls (controls : Controls) (current_time : Q)
    (sim : Simulation) :
  update norm tan radians_35 controls current_time sim
  = update norm tan radians_35 (clipped controls) current_time sim.
Proof.
  unfold update. destruct (last_update_time sim) as [last|]; [|reflexivity].
  unfold clipped. cbn [throttle brake steering gear get].
  rewrite !np_clip_idempotent by discriminate.
  rewrite np_clip_int_idempotent. reflexivity.
Qed.

Ltac open_update sim Hlast :=
  unfold update; rewrite Hlast;
  destruct sim as [st lu dist];
  destruct st as [[[px py] pz] [[vx vy] vz] acc [[roll pitch] yaw] av
                    [[[w1 w2] w3] w4] b mt bt tp];
  cbn [state velocity position orientation wheel_rotations battery_level
       motor_temperature brake_temperature tire_pressure angular_velocity
       total_distance].

Lemma update_battery_level (controls : Controls) (current_time last : Q)
    (sim : Simulation) :
  last_update_time sim = Some last ->
  battery_level (state (update norm tan radians_35 controls current_time sim))
  = Qmax 0.0
      (battery_level (state sim)
       - Qabs (engine_force controls * norm (velocity (state sim))) / 1000
         * (current_time - last) / 3600).
Proof. intros Hlast. open_update sim Hlast. reflexivity. Qed.

Lemma update_motor_temperature (controls : Controls) (current_time last : Q)
    (sim : Simulation) :
  last_update_time sim = Some last ->
  motor_temperature
    (state (update norm tan radians_35 controls current_time sim))
  = motor_temperature (state sim)
    + (20.0 + (120.0 - 20.0) * (Qabs (engine_force controls) / 20000)
       - motor_temperature (state sim)) * 0.1 * (current_time - last).
Proof. intros Hlast. open_update sim Hlast. reflexivity. Qed.

Lemma update_brake_temperature (controls : Controls) (current_time last : Q)
    (sim : Simulation) :
  last_update_time sim = Some last ->
  brake_temperature
    (state (update norm tan radians_35 controls current_time sim))
  = brake_temperature (state sim)
    + (20.0 + (800.0 - 20.0)
              * (brake_pedal controls * norm (velocity (state sim)) / 100)
       - brake_temperature (state sim)) * 0.2 * (current_time - last).
Proof. intros Hlast. open_update sim Hlast. reflexivity. Qed.

Lemma update_total_distance (controls : Controls) (current_time last : Q)
    (sim : Simulation) :
  last_update_time sim = Some last ->
  total_distance (update norm tan radians_35 controls current_time sim)
  = total_distance sim + norm (velocity (state sim)) * (current_time - last).
Proof. intros Hlast. open_update sim Hlast. reflexivity. Qed.

Lemma engine_force_bounded (controls : Controls) :
  Qabs (engine_force controls) <= 20000.
Proof.
  unfold engine_force.
  destruct (np_clip_range (get (throttle controls) 0.0) (-1.0) 1.0)
    as [Hlo Hhi]; [discriminate|].
  set (th := np_clip _ _ _) in *. clearbody th.
  apply Qabs_Qle_condition.
  destruct (np_clip_int_gear (get (gear controls) 0%Z)) as [-> | [-> | ->]];
    unfold inject_Z; split; lra.
Qed.

(** X14. Over an update with a non-negative elapsed time the battery level
    never rises and never goes below 0; in neutral (gear 0, the default
    when the key is missing) or with the throttle released it keeps its
    value. *)
Theorem battery_never_recharges (controls : Controls)
    (current_time last : Q) (sim : Simulation) :
  last_update_time sim = Some last -> last <= current_time ->
  0 <= battery_level (state sim) ->
  let b' :=
    battery_level (state (update norm tan radians_35 controls current_time sim))
  in
  0 <= b' /\ b' <= battery_level (state sim) /\
  (engine_force controls == 0 -> b' == battery_level (state sim)).
Proof.
  intros Hlast Hdt Hb. cbv zeta.
  rewrite (update_battery_level controls current_time last sim Hlast).
  set (p := Qabs (engine_force controls * norm (velocity (state sim)))).
  assert (Hp : 0 <= p) by apply Qabs_nonneg.
  assert (Hdrain : 0 <= p / 1000 * (current_time - last) / 3600).
  { assert (H1 : 0 <= p / 1000)
      by (apply Qle_shift_div_l; [reflexivity | lra]).
    assert (H2 : 0 <= p / 1000 * (current_time - last))
      by (apply Qmult_le_0_compat; lra).
    apply Qle_shift_div_l; [reflexivity | lra]. }
  split; [apply Qle_trans with 0.0; [discriminate | apply Q.le_max_l]|].
  split.
  - apply Q.max_lub; lra.
  - intros Hz.
    assert (Hp0 : p == 0).
    { unfold p. rewrite Hz. setoid_replace (0 * norm (velocity (state sim)))
        with 0 by ring. reflexivity. }
    rewrite Hp0.
    setoid_replace (battery_level (state sim)
                    - 0 / 1000 * (current_time - last) / 3600)
      with (battery_level (state sim)) by (unfold Qdiv; ring).
    apply Q.max_r. lra.
Qed.

(** A first-order relaxation stays between the value and the target. *)
Lemma relax_between (lo hi x target k : Q) :
  0 <= k -> k <= 1 -> lo <= x -> x <= hi -> lo <= target -> target <= hi ->
  lo <= x + (target - x) * k /\ x + (target - x) * k <= hi.
Proof. intros. split; nra. Qed.

(** X15. Over an update whose elapsed time is between 0 and 9.9 s, a
    motor temperature within [20, 120] stays within [20, 120]; over one
    between 0 and 4.9 s with a non-negative speed, a brake temperature of
    at least 20 stays at least 20.  The update has no clamp: the bounds
    rest on the relaxation factors 0.1 * dt and 0.2 * dt staying below 1,
    here by a margin of at least 0.01, far more than the rounding of the
    float computation; at a factor of exactly 1 the exact value lands on
    the target, which the rounded one can miss. *)
Theorem temperatures_stay_above_ambient (controls : Controls)
    (current_time last : Q) (sim : Simulation) :
  last_update_time sim = Some last -> last <= current_time ->
  let st' := state (update norm tan radians_35 controls current_time sim) in
  (current_time - last <= 9.9 ->
   20 <= motor_temperature (state sim) ->
   motor_temperature (state sim) <= 120 ->
   20 <= motor_temperature st' /\ motor_temperature st' <= 120) /\
  (current_time - last <= 4.9 ->
   0 <= norm (velocity (state sim)) ->
   20 <= brake_temperature (state sim) ->
   20 <= brake_temperature st').
Proof.
  intros Hlast Hdt. cbv zeta. split.
  - intros H10 Hlo Hhi.
    rewrite (update_motor_temperature controls current_time last sim Hlast).
    pose proof (engine_force_bounded controls) as Hf.
    pose proof (Qabs_nonneg (engine_force controls)) as Hf0.
    set (f := Qabs (engine_force controls)) in *.
    assert (Hr0 : 0 <= f / 20000)
      by (apply Qle_shift_div_l; [reflexivity | lra]).
    assert (Hr1 : f / 20000 <= 1)
      by (apply Qle_shift_div_r; [reflexivity | lra]).
    set (r := f / 20000) in *.
    setoid_replace ((20.0 + (120.0 - 20.0) * r - motor_temperature (state sim))
                    * 0.1 * (current_time - last))
      with ((20.0 + (120.0 - 20.0) * r - motor_temperature (state sim))
            * (0.1 * (current_time - last))) by ring.
    apply relax_between; lra.
  - intros H5 Hv Hlo.
    rewrite (update_brake_temperature controls current_time last sim Hlast).
    destruct (np_clip_range (get (brake controls) 0.0) 0.0 1.0) as [Hb0 Hb1];
      [discriminate|].
    fold (brake_pedal controls) in Hb0, Hb1.
    set (bp := brake_pedal controls) in *.
    set (v := norm (velocity (state sim))) in *.
    assert (Hh : 0 <= bp * v / 100).
    { apply Qle_shift_div_l; [reflexivity|].
      assert (0 <= bp * v) by (apply Qmult_le_0_compat; lra). lra. }
    assert (Hdt0 : 0 <= current_time - last) by lra.
    set (h := bp * v / 100) in *.
    set (x := brake_temperature (state sim)) in *.
    set (dt := current_time - last) in *.
    clearbody h x dt.
    assert (Hk0 : 0 <= 0.2 * dt) by lra.
    assert (Hk1 : 0.2 * dt <= 1) by lra.
    nra.
Qed.

(** X16. Over an update with a non-negative elapsed time and a non-negative
    speed, the distance counter never decreases. *)
Theorem total_distance_never_decreases (controls : Controls)
    (current_time last : Q) (sim : Simulation) :
  last_update_time sim = Some last -> last <= current_time ->
  0 <= norm (velocity (state sim)) ->
  total_distance sim
  <= total_distance (update norm tan radians_35 controls current_time sim).
Proof.
  intros Hlast Hdt Hv.
  rewrite (update_total_distance controls current_time last sim Hlast).
  assert (0 <= norm (velocity (state sim)) * (current_time - last))
    by (apply Qmult_le_0_compat; lra).
  lra.
Qed.

Lemma np_clip_zero (x lo hi : Q) :
  lo <= 0 -> 0 <= hi -> x == 0 -> np_clip x lo hi == 0.
Proof.
  intros Hlo Hhi Hx. unfold np_clip.
  rewrite Q.max_l by lra. rewrite Q.min_l by lra. exact Hx.
Qed.

Lemma turning_radius_straight (steering : Q) :
  steering == 0 -> turning_radius tan (steering * radians_35) = None.
Proof.
  intros Hs. unfold turning_radius.
  assert (Hlow : Qltb 0.001 (Qabs (steering * radians_35)) = false).
  { apply Qltb_false. rewrite Hs.
    setoid_replace (0 * radians_35) with 0 by ring. discriminate. }
  now rewrite Hlow.
Qed.

(** X17. An update changes neither the lateral and vertical velocity, nor
    roll and pitch, nor the angular velocity, nor the tire pressures; the
    acceleration it stores is purely longitudinal; the position advances by
    the new velocity times the elapsed time; and with the steering
    released the yaw is unchanged too. *)
Theorem update_is_longitudinal (controls : Controls) (current_time last : Q)
    (sim : Simulation) :
  last_update_time sim = Some last ->
  let st := state sim in
  let st' := state (update norm tan radians_35 controls current_time sim) in
  let dt := current_time - last in
  y_of (velocity st') = y_of (velocity st) /\
  z_of (velocity st') = z_of (velocity st) /\
  y_of (acceleration st') = 0.0 /\ z_of (acceleration st') = 0.0 /\
  x_of (orientation st') = x_of (orientation st) /\
  y_of (orientation st') = y_of (orientation st) /\
  angular_velocity st' = angular_velocity st /\
  tire_pressure st' = tire_pressure st /\
  x_of (position st') = x_of (position st) + x_of (velocity st') * dt /\
  y_of (position st') = y_of (position st) + y_of (velocity st') * dt /\
  z_of (position st') = z_of (position st) + z_of (velocity st') * dt /\
  (get (steering controls) 0.0 == 0 ->
   z_of (orientation st') = z_of (orientation st)).
Proof.
  intros Hlast. cbv zeta.
  assert (Hyaw : get (steering controls) 0.0 == 0 ->
                 turning_radius tan
                   (np_clip (get (steering controls) 0.0) (-1.0) 1.0
                    * radians_35) = None).
  { intros Hs. apply turning_radius_straight.
    apply np_clip_zero; [discriminate | discriminate | exact Hs]. }
  revert Hyaw. open_update sim Hlast. intros Hyaw.
  destruct (turning_radius tan _) as [radius|];
    cbn; repeat split; intros Hs; specialize (Hyaw Hs); discriminate Hyaw.
Qed.

Lemma update_acceleration (controls : Controls) (current_time last : Q)
    (sim : Simulation) :
  last_update_time sim = Some last ->
  let speed := norm (velocity (state sim)) in
  let a :=
    (engine_force controls - 30000 * brake_pedal controls
     - 0.5 * air_density * drag_coefficient * frontal_area * speed * speed
     - mass * 9.81 * rolling_resistance * np_sign speed) / mass in
  x_of (acceleration
          (state (update norm tan radians_35 controls current_time sim))) = a /\
  x_of (velocity
          (state (update norm tan radians_35 controls current_time sim)))
  = x_of (velocity (state sim)) + a * (current_time - last).
Proof. intros Hlast. cbv zeta. open_update sim Hlast. split; reflexivity. Qed.

Lemma np_sign_zero (x : Q) : x == 0 -> np_sign x = 0.
Proof.
  intros Hx. unfold np_sign.
  assert (H1 : Qltb x 0 = false) by (apply Qltb_false; lra).
  assert (H2 : Qltb 0 x = false) by (apply Qltb_false; lra).
  now rewrite H1, H2.
Qed.

(** X18. At rest and without propulsion the acceleration an update stores is
    -20 times the brake pedal: with the brake released the vehicle stays
    at rest, and with the brake pressed the longitudinal velocity goes
    down over a positive elapsed time, since the brake force is
    subtracted whatever the direction of motion. *)
Theorem brake_at_rest_pulls_backwards (controls : Controls)
    (current_time last : Q) (sim : Simulation) :
  last_update_time sim = Some last ->
  norm (velocity (state sim)) == 0 -> engine_force controls == 0 ->
  let st' := state (update norm tan radians_35 controls current_time sim) in
  x_of (acceleration st') == - (20) * brake_pedal controls /\
  (brake_pedal controls == 0 ->
   x_of (velocity st') == x_of (velocity (state sim))) /\
  (0 < brake_pedal controls -> last < current_time ->
   x_of (velocity st') < x_of (velocity (state sim))).
Proof.
  intros Hlast Hv Hf. cbv zeta.
  destruct (update_acceleration controls current_time last sim Hlast)
    as [Ha Hvx].
  cbv zeta in Ha, Hvx. rewrite Hvx, Ha. clear Ha Hvx.
  rewrite (np_sign_zero _ Hv).
  set (bp := brake_pedal controls).
  assert (Hacc : (engine_force controls - 30000 * bp
                  - 0.5 * air_density * drag_coefficient * frontal_area
                    * norm (velocity (state sim)) * norm (velocity (state sim))
                  - mass * 9.81 * rolling_resistance * 0) / mass
                 == - (20) * bp).
  { rewrite Hf, Hv. unfold mass. field. }
  rewrite Hacc. clearbody bp.
  split; [reflexivity|]. split.
  - intros Hb. rewrite Hb. ring.
  - intros Hb Hdt. nra.
Qed.

End WithNumpy.

End VehiclePhysicsSimulationProperties.

(** ** The further scenarios, evaluated *)

Lemma rain_started_reachable : reachable sin_atan_flat rain_started.
Proof.
  apply (reach_tick sin_atan_flat 0.2 "2026-01-01T08:00:00.200000" init
           rain_draw_tick); [discriminate | apply reach_init].
Qed.

Lemma reachable_mode_and_constants_witness :
  reachable sin_atan_flat rain_started /\
  (simulation_mode (vehicle_data rain_started) = current_mode rain_started /\
   battery_capacity (vehicle_data rain_started) = 60 /\
   vehicle_weight (vehicle_data rain_started) = 1800 /\
   event_probability rain_started = 0.01).
Proof.
  split; [exact rain_started_reachable|].
  apply (reachable_mode_and_constants sin_atan_flat rain_started).
  exact rain_started_reachable.
Defined.

Lemma reachable_ranges_witness :
  reachable sin_atan_flat rain_started /\
  (let d := vehicle_data rain_started in
   (0 <= battery_level d /\ battery_level d <= 100) /\
   (20 <= temperature d /\ temperature d <= 90) /\
   (0 <= motor_load d /\ motor_load d <= 100) /\
   (1.5 <= tire_pressure d /\ tire_pressure d <= 2.4) /\
   (0 <= speed d /\ speed d <= 150) /\
   0 <= total_distance d /\ 0 <= instant_consumption d /\
   0 <= autonomy_remaining d).
Proof.
  split; [exact rain_started_reachable|].
  apply (reachable_ranges sin_atan_flat rain_started).
  exact rain_started_reachable.
Defined.

Lemma reachable_environment_follows_event_witness :
  reachable sin_atan_flat rain_started /\
  match current_event rain_started with
  | Some ev => environment_under (name ev) (vehicle_data rain_started)
  | None => calm (vehicle_data rain_started)
  end.
Proof.
  split; [exact rain_started_reachable|].
  apply (reachable_environment_follows_event sin_atan_flat rain_started).
  exact rain_started_reachable.
Defined.

Lemma reachable_event_counter_witness :
  reachable sin_atan_flat rain_started /\
  current_event rain_started = Some pluie_event /\
  ((1 <= event_duration rain_started)%Z /\
   (event_duration rain_started < duration pluie_event)%Z /\
   (duration pluie_event <= 70)%Z).
Proof.
  split; [exact rain_started_reachable|].
  split; [vm_compute; reflexivity|].
  apply (reachable_event_counter sin_atan_flat rain_started pluie_event).
  - exact rain_started_reachable.
  - vm_compute; reflexivity.
Defined.

Lemma new_event_from_mode_list_witness :
  current_event init = None /\
  (let s' := fst (_handle_random_events init rain_draw_tick) in
   s' = init \/
   exists ev,
     current_event s' = Some ev /\ event_duration s' = duration ev /\
     vehicle_data s' = vehicle_data init /\
     current_mode s' = current_mode init /\
     In ev (events_for (current_mode init)) /\
     (name ev = feu_rouge -> current_mode init = MODE_URBAIN) /\
     (name ev = peage -> current_mode init = MODE_AUTOROUTE) /\
     (10 <= duration ev)%Z /\ (duration ev <= 70)%Z).
Proof.
  split; [reflexivity|].
  apply (new_event_from_mode_list init rain_draw_tick). reflexivity.
Defined.

Lemma event_lasts_its_counter_witness :
  current_event rain_three_left = Some pluie_event /\
  (1 <= event_duration rain_three_left)%Z /\
  (let s' := fst (fst (replay_loop 1000 clock_morning rain_three_left
                         active_run)) in
   ((Z.of_nat (length clock_morning) < event_duration rain_three_left)%Z ->
    current_event s' = Some pluie_event /\
    event_duration s'
    = (event_duration rain_three_left - Z.of_nat (length clock_morning))%Z) /\
   (Z.of_nat (length clock_morning) = event_duration rain_three_left ->
    current_event s' = None)).
Proof.
  split; [reflexivity|]. split; [vm_compute; discriminate|].
  apply (event_lasts_its_counter sin_atan_flat 1000 clock_morning
           rain_three_left active_run pluie_event).
  - reflexivity.
  - vm_compute; discriminate.
Defined.

Module VehiclePhysicsScenarios.
Import VehiclePhysicsSimulation VehiclePhysicsSimulationProperties.

Lemma battery_never_recharges_witness :
  last_update_time rolling = Some 100 /\ 100 <= 100.1 /\
  0 <= battery_level (state rolling) /\
  (let b' :=
     battery_level
       (state (update norm_axial tan_unused radians_35_rounded half_throttle
                 100.1 rolling)) in
   0 <= b' /\ b' <= battery_level (state rolling) /\
   (engine_force half_throttle == 0 -> b' == battery_level (state rolling))).
Proof.
  split; [reflexivity|]. split; [discriminate|]. split; [discriminate|].
  apply (battery_never_recharges norm_axial tan_unused radians_35_rounded
           half_throttle 100.1 100 rolling);
    [reflexivity | discriminate | discriminate].
Defined.

Lemma temperatures_stay_above_ambient_witness :
  last_update_time rolling = Some 100 /\ 100 <= 100.1 /\
  (let st' :=
     state (update norm_axial tan_unused radians_35_rounded half_throttle
              100.1 rolling) in
   (100.1 - 100 <= 9.9 ->
    20 <= motor_temperature (state rolling) ->
    motor_temperature (state rolling) <= 120 ->
    20 <= motor_temperature st' /\ motor_temperature st' <= 120) /\
   (100.1 - 100 <= 4.9 ->
    0 <= norm_axial (velocity (state rolling)) ->
    20 <= brake_temperature (state rolling) ->
    20 <= brake_temperature st')).
Proof.
  split; [reflexivity|]. split; [discriminate|].
  apply (temperatures_stay_above_ambient norm_axial tan_unused
           radians_35_rounded half_throttle 100.1 100 rolling);
    [reflexivity | discriminate].
Defined.

Lemma total_distance_never_decreases_witness :
  last_update_time rolling = Some 100 /\ 100 <= 100.1 /\
  0 <= norm_axial (velocity (state rolling)) /\
  total_distance rolling
  <= total_distance
       (update norm_axial tan_unused radians_35_rounded half_throttle 100.1
          rolling).
Proof.
  split; [reflexivity|]. split; [discriminate|]. split; [discriminate|].
  apply (total_distance_never_decreases norm_axial tan_unused
           radians_35_rounded half_throttle 100.1 100 rolling);
    [reflexivity | discriminate | discriminate].
Defined.

Lemma update_is_longitudinal_witness :
  last_update_time rolling = Some 100 /\
  (let st := state rolling in
   let st' :=
     state (update norm_axial tan_unused radians_35_rounded half_throttle
              100.1 rolling) in
   let dt := 100.1 - 100 in
   y_of (velocity st') = y_of (velocity st) /\
   z_of (velocity st') = z_of (velocity st) /\
   y_of (acceleration st') = 0.0 /\ z_of (acceleration st') = 0.0 /\
   x_of (orientation st') = x_of (orientation st) /\
   y_of (orientation st') = y_of (orientation st) /\
   angular_velocity st' = angular_velocity st /\
   tire_pressure st' = tire_pressure st /\
   x_of (position st') = x_of (position st) + x_of (velocity st') * dt /\
   y_of (position st') = y_of (position st) + y_of (velocity st') * dt /\
   z_of (position st') = z_of (position st) + z_of (velocity st') * dt /\
   (get (steering half_throttle) 0.0 == 0 ->
    z_of (orientation st') = z_of (orientation st))).
Proof.
  split; [reflexivity|].
  apply (update_is_longitudinal norm_axial tan_unused radians_35_rounded
           half_throttle 100.1 100 rolling).
  reflexivity.
Defined.

Lemma brake_at_rest_pulls_backwards_witness :
  last_update_time at_rest = Some 100 /\
  norm_axial (velocity (state at_rest)) == 0 /\
  engine_force full_brake == 0 /\
  (let st' :=
     state (update norm_axial tan_unused radians_35_rounded full_brake 100.1
              at_rest) in
   x_of (acceleration st') == - (20) * brake_pedal full_brake /\
   (brake_pedal full_brake == 0 ->
    x_of (velocity st') == x_of (velocity (state at_rest))) /\
   (0 < brake_pedal full_brake -> 100 < 100.1 ->
    x_of (velocity st') < x_of (velocity (state at_rest)))).
Proof.
  split; [reflexivity|]. split; [reflexivity|]. split; [reflexivity|].
  apply (brake_at_rest_pulls_backwards norm_axial tan_unused
           radians_35_rounded full_brake 100.1 100 at_rest);
    reflexivity.
Defined.

End VehiclePhysicsScenarios.
